(** * Atlas War Room: a shallow embedding of [bot.py] and [db_manager.py]

    Python text is a list of Unicode code points ([pystr]), so that
    [len], slicing and [str.startswith] behave as they do on [str].
    Values decoded from the completions API are [json] values.
    Python exceptions are the [Raise] case of the [py] monad; a
    [try]/[except Exception] block is [py_try]. *)

From Stdlib Require Import List ZArith Lia Ascii String Bool.
Import ListNotations.
Set Warnings "-register-all".

(* ------------------------------------------------------------------ *)
(** ** Python text *)

Definition pystr := list Z.

(** ASCII Rocq literals as code points. *)
Definition s (x : string) : pystr :=
  map (fun c => Z.of_nat (nat_of_ascii c)) (list_ascii_of_string x).

Definition nl : pystr := [10%Z].

(** "⚠️" is U+26A0 U+FE0F; "📚" is U+1F4DA. *)
Definition WARN : pystr := [9888%Z; 65039%Z].
Definition BOOKS : pystr := [128218%Z].

Fixpoint pystr_eqb (a b : pystr) : bool :=
  match a, b with
  | [], [] => true
  | x :: a', y :: b' => Z.eqb x y && pystr_eqb a' b'
  | _, _ => false
  end.

(** [w.startswith(p)] *)
Fixpoint startswith (w p : pystr) : bool :=
  match p, w with
  | [], _ => true
  | a :: p', b :: w' => Z.eqb a b && startswith w' p'
  | _ :: _, [] => false
  end.

(** [p in w] for two strings. *)
Fixpoint str_in (p w : pystr) : bool :=
  startswith w p || match w with [] => false | _ :: w' => str_in p w' end.

(** [str.lower] on the ASCII letters (other case mappings are not
    modelled). *)
Definition lower_cp (c : Z) : Z :=
  if (65 <=? c)%Z && (c <=? 90)%Z then (c + 32)%Z else c.
Definition lower (w : pystr) : pystr := map lower_cp w.

(** [w[:n]] *)
Definition slice_to (n : nat) (w : pystr) : pystr := firstn n w.

Fixpoint join (sep : pystr) (ws : list pystr) : pystr :=
  match ws with
  | [] => []
  | [w] => w
  | w :: ws' => w ++ sep ++ join sep ws'
  end.

(** Decimal rendering of an integer ([str(n)]); the fuel is the bit
    length, which bounds the number of decimal digits. *)
Fixpoint dec_aux (fuel : nat) (n : Z) (acc : pystr) : pystr :=
  match fuel with
  | O => acc
  | S f =>
      let acc' := (48 + n mod 10)%Z :: acc in
      if (n <? 10)%Z then acc' else dec_aux f (n / 10)%Z acc'
  end.

Definition dec (n : Z) : pystr :=
  if (n <? 0)%Z
  then 45%Z :: dec_aux (S (Z.to_nat (Z.log2 (- n)))) (- n) []
  else dec_aux (S (Z.to_nat (Z.log2 n))) n [].

(* ------------------------------------------------------------------ *)
(** ** Python values decoded from JSON *)

(** JSON numbers are modelled as integers. *)
Inductive json : Type :=
| JNull
| JBool (b : bool)
| JInt (z : Z)
| JStr (t : pystr)
| JList (l : list json)
| JDict (kv : list (pystr * json)).

(** Python truthiness. *)
Definition truthy (v : json) : bool :=
  match v with
  | JNull => false
  | JBool b => b
  | JInt z => negb (Z.eqb z 0)
  | JStr t => negb (pystr_eqb t [])
  | JList l => match l with [] => false | _ => true end
  | JDict kv => match kv with [] => false | _ => true end
  end.

Definition type_name (v : json) : pystr :=
  match v with
  | JNull => s "NoneType" | JBool _ => s "bool" | JInt _ => s "int"
  | JStr _ => s "str" | JList _ => s "list" | JDict _ => s "dict"
  end.

Definition quote (t : pystr) : pystr := [39%Z] ++ t ++ [39%Z].

(** [repr] of a value inside a container and [str] of a value
    (string escaping is not modelled). *)
Fixpoint py_repr (v : json) : pystr :=
  match v with
  | JNull => s "None"
  | JBool true => s "True"
  | JBool false => s "False"
  | JInt z => dec z
  | JStr t => quote t
  | JList l => [91%Z] ++ join (s ", ") (map py_repr l) ++ [93%Z]
  | JDict kv =>
      [123%Z] ++ join (s ", ")
        (map (fun kv1 => quote (fst kv1) ++ s ": " ++ py_repr (snd kv1)) kv)
      ++ [125%Z]
  end.

Definition py_str (v : json) : pystr :=
  match v with JStr t => t | _ => py_repr v end.

(* ------------------------------------------------------------------ *)
(** ** Exceptions *)

Inductive exn_kind : Type :=
| KeyError | IndexError | TypeError | AttributeError | ValueError
| HTTPStatusError | TransportError | JSONDecodeError | DatabaseError.

(** [str(e)] is [exn_msg]. *)
Record exn : Type := mk_exn { exn_type : exn_kind; exn_msg : pystr }.

Inductive py (A : Type) : Type :=
| Ok (a : A)
| Raise (e : exn).
Arguments Ok {A} a.
Arguments Raise {A} e.

Definition py_bind {A B} (c : py A) (k : A -> py B) : py B :=
  match c with Ok a => k a | Raise e => Raise e end.

Notation "'let!' x ':=' c 'in' k" := (py_bind c (fun x => k))
  (at level 200, x name, c at level 100, k at level 200).

(** [try: body except Exception as e: handler(e)] *)
Definition py_try {A} (body : py A) (handler : exn -> py A) : py A :=
  match body with Ok a => Ok a | Raise e => handler e end.

(** [await asyncio.gather( *tasks)]: all results in task order; an
    exception of a task propagates (the first one in task order). *)
Fixpoint gather {A} (tasks : list (py A)) : py (list A) :=
  match tasks with
  | [] => Ok []
  | t :: ts => let! a := t in let! rest := gather ts in Ok (a :: rest)
  end.

(* ------------------------------------------------------------------ *)
(** ** Subscripting and methods on decoded values *)

(** The last binding of a key wins, as with [json.loads]. *)
Definition dict_lookup (kv : list (pystr * json)) (k : pystr) : option json :=
  match find (fun p => pystr_eqb (fst p) k) (rev kv) with
  | Some (_, v) => Some v
  | None => None
  end.

(** [v[k]] with a string key. *)
Definition getitem_str (v : json) (k : pystr) : py json :=
  match v with
  | JDict kv =>
      match dict_lookup kv k with
      | Some x => Ok x
      | None => Raise (mk_exn KeyError (quote k))
      end
  | JList _ | JStr _ =>
      Raise (mk_exn TypeError
        (type_name v ++ s " indices must be integers or slices, not str"))
  | _ => Raise (mk_exn TypeError
           (quote (type_name v) ++ s " object is not subscriptable"))
  end.

(** [v[i]] with a non-negative integer index. *)
Definition getitem_int (v : json) (i : nat) : py json :=
  match v with
  | JList l =>
      match nth_error l i with
      | Some x => Ok x
      | None => Raise (mk_exn IndexError (s "list index out of range"))
      end
  | JStr t =>
      match nth_error t i with
      | Some c => Ok (JStr [c])
      | None => Raise (mk_exn IndexError (s "string index out of range"))
      end
  | JDict _ => Raise (mk_exn KeyError (dec (Z.of_nat i)))
  | _ => Raise (mk_exn TypeError
           (quote (type_name v) ++ s " object is not subscriptable"))
  end.

(** [v.get(k, default)] *)
Definition py_get (v : json) (k : pystr) (default : json) : py json :=
  match v with
  | JDict kv =>
      match dict_lookup kv k with Some x => Ok x | None => Ok default end
  | _ => Raise (mk_exn AttributeError
           (quote (type_name v) ++ s " object has no attribute 'get'"))
  end.

(** [k in v] with a string [k]. *)
Definition py_in (k : pystr) (v : json) : py bool :=
  match v with
  | JDict kv => Ok (match dict_lookup kv k with Some _ => true | None => false end)
  | JList l =>
      Ok (existsb (fun x => match x with JStr t => pystr_eqb t k | _ => false end) l)
  | JStr t => Ok (str_in k t)
  | _ => Raise (mk_exn TypeError
           (s "argument of type " ++ quote (type_name v) ++ s " is not iterable"))
  end.

(** [v.startswith(p)] *)
Definition py_startswith (v : json) (p : pystr) : py bool :=
  match v with
  | JStr t => Ok (startswith t p)
  | _ => Raise (mk_exn AttributeError
           (quote (type_name v) ++ s " object has no attribute 'startswith'"))
  end.

(* ------------------------------------------------------------------ *)
(** ** Roster configuration ([OFFICERS], [ACTIVE_ROSTER]) *)

(** One entry of [roster_config["officers"]]; the keys the code reads
    with [.get] or [in] are optional. *)
Record officer : Type := mk_officer {
  o_title : pystr;
  o_model : pystr;
  o_specialty : pystr;
  o_system_prompt : pystr;
  o_capability_class : option pystr;
  o_color : option pystr
}.

Record config : Type := mk_config {
  OFFICERS : list (pystr * officer);
  ACTIVE_ROSTER : list pystr
}.

(** [OFFICERS[officer_id]] *)
Definition lookup_officer (cfg : config) (officer_id : pystr) : py officer :=
  match find (fun p => pystr_eqb (fst p) officer_id) (OFFICERS cfg) with
  | Some (_, o) => Ok o
  | None => Raise (mk_exn KeyError (quote officer_id))
  end.

(** [officer.get("capability_class", default)] *)
Definition capability_class_or (default : pystr) (o : officer) : pystr :=
  match o_capability_class o with Some c => c | None => default end.

(** [bool(x)] for an optional [str] argument. *)
Definition opt_truthy (x : option pystr) : bool :=
  match x with Some t => negb (pystr_eqb t []) | None => false end.

(** The list comprehension of [filter_officers_by_capability]. *)
Fixpoint keep_matching (cfg : config) (capability_class_lower : pystr) (ids : list pystr)
  : py (list pystr) :=
  match ids with
  | [] => Ok []
  | officer_id :: rest =>
      let! o := lookup_officer cfg officer_id in
      let! kept := keep_matching cfg capability_class_lower rest in
      if pystr_eqb (lower (capability_class_or [] o)) capability_class_lower
      then Ok (officer_id :: kept) else Ok kept
  end.

(** [filter_officers_by_capability] *)
Definition filter_officers_by_capability (cfg : config) (capability_class : option pystr)
  : py (list pystr) :=
  match capability_class with
  | Some cc =>
      if negb (opt_truthy capability_class) then Ok (ACTIVE_ROSTER cfg) else
      let capability_class_lower := lower cc in
      keep_matching cfg capability_class_lower (ACTIVE_ROSTER cfg)
  | None => Ok (ACTIVE_ROSTER cfg)
  end.

(** [model_supports_web_search] *)
Definition model_supports_web_search (model_name : pystr) : bool :=
  let model_lower := lower model_name in
  str_in (s "perplexity") model_lower
  || (str_in (s "google") model_lower && str_in (s "gemini") model_lower).

(** [int(x, 16)]: an optional sign, an optional [0x] prefix and one or
    more hexadecimal digits (surrounding blanks and digit-separating
    underscores, which Python also accepts, are not modelled). *)
Definition hex_digit (c : Z) : option Z :=
  if (48 <=? c)%Z && (c <=? 57)%Z then Some (c - 48)%Z
  else if (97 <=? c)%Z && (c <=? 102)%Z then Some (c - 87)%Z
  else if (65 <=? c)%Z && (c <=? 70)%Z then Some (c - 55)%Z
  else None.

Fixpoint hex_digits (acc : Z) (w : pystr) : option Z :=
  match w with
  | [] => Some acc
  | c :: w' =>
      match hex_digit c with
      | Some d => hex_digits (acc * 16 + d)%Z w'
      | None => None
      end
  end.

Definition hex_unsigned (w : pystr) : option Z :=
  let w := match w with
           | 48%Z :: x :: w' => if Z.eqb (lower_cp x) 120 then w' else w
           | _ => w
           end in
  match w with [] => None | _ => hex_digits 0 w end.

Definition int_base16 (x : pystr) : py Z :=
  let r := match x with
           | 45%Z :: w => option_map Z.opp (hex_unsigned w)
           | 43%Z :: w => hex_unsigned w
           | w => hex_unsigned w
           end in
  match r with
  | Some z => Ok z
  | None => Raise (mk_exn ValueError
              (s "invalid literal for int() with base 16: " ++ quote x))
  end.

(** [CAPABILITY_COLORS.get(capability_class, 0x95A5A6)] *)
Definition CAPABILITY_COLORS (capability_class : pystr) : Z :=
  if pystr_eqb capability_class (s "Strategic") then 10181046%Z
  else if pystr_eqb capability_class (s "Operational") then 3447003%Z
  else if pystr_eqb capability_class (s "Tactical") then 3066993%Z
  else if pystr_eqb capability_class (s "Support") then 15965202%Z
  else 9807270%Z.

(** [get_officer_color] *)
Definition get_officer_color (o : officer) : py Z :=
  match o_color o with
  | Some c => int_base16 c
  | None => Ok (CAPABILITY_COLORS (capability_class_or (s "Operational") o))
  end.

(** [RESEARCH_ROLES[role_index]] as (role, instruction). *)
Definition RESEARCH_ROLES (role_index : nat) : py (pystr * pystr) :=
  match role_index with
  | 0 => Ok (s "State-of-the-Art Researcher",
             s "Focus on current best practices, leading solutions, and latest developments. Cite specific examples and provide concrete evidence.")
  | 1 => Ok (s "Critical Analyst",
             s "Identify counterexamples, flaws, limitations, and risks. Challenge assumptions and highlight edge cases.")
  | 2 => Ok (s "Optimistic Visionary",
             s "Explore futuristic possibilities, emerging technologies, and 'what if' scenarios. Think 3-5 years ahead.")
  | 3 => Ok (s "Historical Context Provider",
             s "Explain the evolution of this field, past attempts, lessons learned, and provide historical perspective.")
  | _ => Raise (mk_exn KeyError (dec (Z.of_nat role_index)))
  end.

(* ------------------------------------------------------------------ *)
(** ** The completions endpoint *)

(** A response of [client.post]: status code and body, [None] when the
    body is not valid JSON. *)
Record http_response : Type := mk_response {
  status_code : Z;
  body : option json
}.

(** [response.raise_for_status()]: httpx raises for every status that
    is not 2xx (the message text of httpx is abbreviated). *)
Definition raise_for_status (r : http_response) : py unit :=
  if (200 <=? status_code r)%Z && (status_code r <? 300)%Z then Ok tt
  else Raise (mk_exn HTTPStatusError
         (s "HTTP status " ++ dec (status_code r)))%list.

(** [response.json()] *)
Definition response_json (r : http_response) : py json :=
  match body r with
  | Some v => Ok v
  | None => Raise (mk_exn JSONDecodeError (s "Expecting value: line 1 column 1 (char 0)"))
  end.

(** A result record of an officer query. *)
Record result : Type := mk_result {
  r_officer_id : pystr;
  r_title : pystr;
  r_model : pystr;
  r_specialty : pystr;
  r_capability_class : pystr;
  r_color : Z;
  r_research_role : option pystr;
  r_response : json;
  r_success : bool;
  r_error : option pystr
}.

Definition msg (role content : pystr) : json :=
  JDict [(s "role", JStr role); (s "content", JStr content)].

Definition MEMORY_HEADER : pystr := nl ++ nl ++ s "## Your Memory for This Channel:" ++ nl.

(** [if channel_id: memory_context = await load_officer_memory(...)] *)
Definition load_memory_if (load_mem : Z -> pystr -> py pystr)
    (channel_id : option Z) (officer_id : pystr) : py pystr :=
  match channel_id with
  | Some c => if Z.eqb c 0 then Ok [] else load_mem c officer_id
  | None => Ok []
  end.

Section Queries.

(** The roster, the memory loader of [db_manager] and [client.post]
    applied to a JSON payload (the bearer header is constant). *)
Variable cfg : config.
Variable load_mem : Z -> pystr -> py pystr.
Variable post : json -> py http_response.

(** The [try] block of [query_officer]. *)
Definition query_officer_try (officer_id : pystr) (o : officer) (payload : json)
  : py result :=
  let! response := post payload in
  let! _u := raise_for_status response in
  let! data := response_json response in
  let! choices := getitem_str data (s "choices") in
  let! choice0 := getitem_int choices 0 in
  let! message := getitem_str choice0 (s "message") in
  let! content := getitem_str message (s "content") in
  let! color := get_officer_color o in
  Ok (mk_result officer_id (o_title o) (o_model o) (o_specialty o)
        (capability_class_or (s "Operational") o) color None content true None).

(** The [except Exception as e] handler of [query_officer]. *)
Definition query_officer_except (officer_id : pystr) (o : officer) (e : exn)
  : py result :=
  let! color := get_officer_color o in
  Ok (mk_result officer_id (o_title o) (o_model o) (o_specialty o)
        (capability_class_or (s "Operational") o) color None
        (JStr (s "Error: " ++ exn_msg e)) false None).

(** The request body built by [query_officer]. *)
Definition query_payload (o : officer) (mission_brief memory_context : pystr) : json :=
  let system_content :=
    if pystr_eqb memory_context [] then o_system_prompt o
    else o_system_prompt o ++ MEMORY_HEADER ++ memory_context in
  JDict [(s "model", JStr (o_model o));
         (s "messages", JList [msg (s "system") system_content;
                               msg (s "user") mission_brief])].

(** [query_officer] *)
Definition query_officer (officer_id mission_brief : pystr) (channel_id : option Z)
  : py result :=
  let! o := lookup_officer cfg officer_id in
  let! memory_context := load_memory_if load_mem channel_id officer_id in
  let payload := query_payload o mission_brief memory_context in
  py_try (query_officer_try officer_id o payload) (query_officer_except officer_id o).

(** [query_all_officers] *)
Definition query_all_officers (mission_brief : pystr) (capability_class : option pystr)
    (channel_id : option Z) : py (list result) :=
  let! officer_ids := filter_officers_by_capability cfg capability_class in
  match officer_ids with
  | [] => Ok []
  | _ => gather (map (fun officer_id => query_officer officer_id mission_brief channel_id)
                   officer_ids)
  end.

Definition TOOL_CALL_PLACEHOLDER (query : pystr) : pystr :=
  WARN ++ s " Model attempted to call search tool but function execution is not yet implemented. Query: " ++ query.

Definition EMPTY_PLACEHOLDER : pystr :=
  WARN ++ s " Model returned empty response. This may indicate the model doesn't support the requested operation or encountered an internal error.".

Definition WEB_DISCLAIMER (model : pystr) : pystr :=
  BOOKS ++ s " **Note: Web search not available for this model (" ++ model
  ++ s "). Response based on pretraining knowledge only.**" ++ nl ++ nl.

(** [if not content and "tool_calls" in message: ...] *)
Definition tool_call_content (message content : json) : py json :=
  if truthy content then Ok content else
  let! has_tool_calls := py_in (s "tool_calls") message in
  if negb has_tool_calls then Ok content else
  let! tool_calls := getitem_str message (s "tool_calls") in
  if negb (truthy tool_calls) then Ok content else
  let! call0 := getitem_int tool_calls 0 in
  let! function := py_get call0 (s "function") (JDict []) in
  let! arguments := py_get function (s "arguments") (JStr (s "N/A")) in
  Ok (JStr (TOOL_CALL_PLACEHOLDER (py_str arguments))).

(** The [try] block of [query_officer_with_research_role]. *)
Definition research_try (officer_id : pystr) (o : officer) (role : pystr)
    (has_web_search web_search_requested : bool) (payload : json) : py result :=
  let! response := post payload in
  let! _u := raise_for_status response in
  let! data := response_json response in
  let! choices := getitem_str data (s "choices") in
  let! choice0 := getitem_int choices 0 in
  let! message := getitem_str choice0 (s "message") in
  let! content := py_get message (s "content") (JStr []) in
  let! content := tool_call_content message content in
  let content := if truthy content then content else JStr EMPTY_PLACEHOLDER in
  let content :=
    if web_search_requested && negb has_web_search
    then JStr (WEB_DISCLAIMER (o_model o) ++ py_str content) else content in
  let! color := get_officer_color o in
  let! success :=
    (if truthy content
     then let! w := py_startswith content WARN in Ok (negb w)
     else Ok false) in
  Ok (mk_result officer_id (o_title o) (o_model o) (o_specialty o)
        (capability_class_or (s "Operational") o) color (Some role) content success None).

(** The [except Exception as e] handler of [query_officer_with_research_role]. *)
Definition research_except (officer_id : pystr) (o : officer) (role : pystr) (e : exn)
  : py result :=
  let! color := get_officer_color o in
  Ok (mk_result officer_id (o_title o) (o_model o) (o_specialty o)
        (capability_class_or (s "Operational") o) color (Some role)
        (JStr (s "Error: " ++ exn_msg e)) false (Some (exn_msg e))).

Definition WEB_SEARCH_INSTRUCTION : pystr :=
  nl ++ nl ++ s "**IMPORTANT: You have access to real-time web search. Search for current information, cite specific sources with URLs, and include publication dates when available. Always verify facts through multiple sources.**".

Definition WEB_SEARCH_USER_NOTE : pystr :=
  nl ++ nl ++ s "**Use web search to find current information and cite all sources with URLs.**".

(** [payload["provider"] = ...] when web search is active. *)
Definition research_payload (model system_content user_prompt : pystr)
    (web_search_active : bool) : json :=
  let base := [(s "model", JStr model);
               (s "messages", JList [msg (s "system") system_content;
                                     msg (s "user") user_prompt])] in
  let model_name := lower model in
  if web_search_active && negb (str_in (s "perplexity") model_name)
     && (str_in (s "google") model_name || str_in (s "gemini") model_name)
  then JDict (base ++ [(s "provider",
                        JDict [(s "order", JList [JStr (s "Google")]);
                               (s "allow_fallbacks", JBool false)])])
  else JDict base.

(** [query_officer_with_research_role] *)
Definition query_officer_with_research_role (officer_id research_topic : pystr)
    (role_index : nat) (channel_id : option Z) (use_web_search : bool) : py result :=
  let! o := lookup_officer cfg officer_id in
  let! role_config := RESEARCH_ROLES role_index in
  let '(role, instruction) := role_config in
  let has_web_search := model_supports_web_search (o_model o) in
  let web_search_requested := use_web_search in
  let web_search_active := web_search_requested && has_web_search in
  let! memory_context := load_memory_if load_mem channel_id officer_id in
  let research_instruction :=
    nl ++ nl ++ s "## RESEARCH ROLE: " ++ role ++ nl ++ instruction
    ++ (if web_search_active then WEB_SEARCH_INSTRUCTION else []) in
  let system_content := o_system_prompt o ++ research_instruction in
  let system_content :=
    if pystr_eqb memory_context [] then system_content
    else system_content ++ MEMORY_HEADER ++ memory_context in
  let user_prompt :=
    s "Research Topic: " ++ research_topic ++ nl ++ nl
    ++ s "Provide a comprehensive analysis from your assigned perspective as the "
    ++ role ++ s "."
    ++ (if web_search_active then WEB_SEARCH_USER_NOTE else []) in
  let payload := research_payload (o_model o) system_content user_prompt web_search_active in
  py_try (research_try officer_id o role has_web_search web_search_requested payload)
         (research_except officer_id o role).

(** [str(capability_class)] in the error message. *)
Definition opt_str (x : option pystr) : pystr :=
  match x with Some t => t | None => s "None" end.

(** [query_research_council] *)
Definition query_research_council (research_topic : pystr) (capability_class : option pystr)
    (channel_id : option Z) (use_web_search : bool) : py (list result) :=
  let! officer_ids := filter_officers_by_capability cfg capability_class in
  if negb (Nat.eqb (List.length officer_ids) 4)
  then Raise (mk_exn ValueError
         (s "Expected 4 officers in " ++ opt_str capability_class ++ s ", found "
          ++ dec (Z.of_nat (List.length officer_ids))))
  else gather (map (fun i => query_officer_with_research_role (nth i officer_ids [])
                                research_topic i channel_id use_web_search)
                 (seq 0 4)).

End Queries.

(* ------------------------------------------------------------------ *)
(** ** Embeds and batching *)

(** The parts of a [discord.Embed] that [calculate_embed_size] reads. *)
Record embed : Type := mk_embed {
  e_title : option pystr;
  e_description : option pystr;
  e_footer_text : option pystr;
  e_author_name : option pystr;
  e_fields : list (pystr * pystr)
}.

(** [len(x)] when [x] is truthy, 0 otherwise. *)
Definition opt_len (x : option pystr) : nat :=
  match x with Some t => if pystr_eqb t [] then 0 else List.length t | None => 0 end.

(** [calculate_embed_size] *)
Definition calculate_embed_size (e : embed) : nat :=
  opt_len (e_title e) + opt_len (e_description e) + opt_len (e_footer_text e)
  + opt_len (e_author_name e)
  + fold_left (fun total f => total + (List.length (fst f) + List.length (snd f)))
      (e_fields e) 0.

Definition MAX_EMBED_SIZE : nat := 5500.

(** One [interaction.followup.send] call: its embeds and its view. *)
Record send (V : Type) : Type := mk_send { sent_embeds : list embed; sent_view : option V }.
Arguments mk_send {V}.
Arguments sent_embeds {V}.
Arguments sent_view {V}.

(** The [for] loop of [send_embeds_in_batches]: the messages sent so
    far, in sending order, and the final [current_batch] and
    [current_size]. *)
Fixpoint batch_loop {V} (embeds : list embed) (sent : list (send V))
    (current_batch : list embed) (current_size : nat)
  : list (send V) * list embed * nat :=
  match embeds with
  | [] => (sent, current_batch, current_size)
  | e :: rest =>
      let embed_size := calculate_embed_size e in
      let '(sent, current_batch, current_size) :=
        if Nat.ltb MAX_EMBED_SIZE (current_size + embed_size)
           && negb (match current_batch with [] => true | _ => false end)
        then (sent ++ [mk_send current_batch None], [], 0)
        else (sent, current_batch, current_size) in
      batch_loop rest sent (current_batch ++ [e]) (current_size + embed_size)
  end.

(** [send_embeds_in_batches]: every message it sends. *)
Definition send_embeds_in_batches {V} (embeds : list embed) (view : option V)
  : list (send V) :=
  let '(sent, current_batch, _) := batch_loop embeds [] [] 0 in
  match current_batch with
  | [] => sent
  | _ => sent ++ [mk_send current_batch view]
  end.

Definition batch_size (b : list embed) : nat :=
  fold_right (fun e n => calculate_embed_size e + n) 0 b.

(* ------------------------------------------------------------------ *)
(** ** The persistence layer ([db_manager.py], [models/memory.py]) *)

(** A row of [manual_notes]. *)
Record manual_note : Type := mk_note {
  n_id : Z;
  n_officer_id : pystr;
  n_channel_id : Z;
  n_note_content : pystr;
  n_created_by_user_id : Z;
  n_created_at : Z;
  n_updated_at : Z;
  n_is_pinned : bool
}.

(** A row of [mission_history]. *)
Record mission_history : Type := mk_mission {
  m_id : Z;
  m_channel_id : Z;
  m_mission_brief : pystr;
  m_started_at : Z;
  m_completed_at : option Z;
  m_capability_class_filter : option pystr;
  m_user_id : Z;
  m_extra_metadata : option json
}.

(** A row of [mission_officer_response]. *)
Record mission_officer_response : Type := mk_response_row {
  mr_id : Z;
  mr_mission_id : Z;
  mr_officer_id : pystr;
  mr_response_content : pystr;
  mr_tokens_used : option Z;
  mr_success : bool;
  mr_error_message : option pystr;
  mr_created_at : Z
}.

(** The tables the memory operations touch, in table order, and the
    next value of the id sequence of [manual_notes]. *)
Record db : Type := mk_db {
  manual_notes : list manual_note;
  missions : list mission_history;
  responses : list mission_officer_response;
  next_note_id : Z
}.

(** [ORDER BY]: a stable insertion sort, [le a b] meaning that [a] may
    come first; rows that tie keep their table order. *)
Fixpoint insert_by {A} (le : A -> A -> bool) (x : A) (l : list A) : list A :=
  match l with
  | [] => [x]
  | y :: l' => if le x y then x :: l else y :: insert_by le x l'
  end.

Fixpoint sort_by {A} (le : A -> A -> bool) (l : list A) : list A :=
  match l with
  | [] => []
  | x :: l' => insert_by le x (sort_by le l')
  end.

(** [order_by(is_pinned.desc(), created_at.desc())] *)
Definition note_order (a b : manual_note) : bool :=
  (n_is_pinned a && negb (n_is_pinned b))
  || (Bool.eqb (n_is_pinned a) (n_is_pinned b) && (n_created_at b <=? n_created_at a)%Z).

(** [order_by(MissionHistory.started_at.desc())] *)
Definition mission_order (a b : mission_officer_response * mission_history) : bool :=
  (m_started_at (snd b) <=? m_started_at (snd a))%Z.

Definition note_of (channel_id : Z) (officer_id : pystr) (n : manual_note) : bool :=
  pystr_eqb (n_officer_id n) officer_id && Z.eqb (n_channel_id n) channel_id.

(** [select(MissionOfficerResponse, ...).join(MissionHistory)] on the
    foreign key [mission_id]. *)
Definition join_missions (rs : list mission_officer_response) (ms : list mission_history)
  : list (mission_officer_response * mission_history) :=
  flat_map (fun r => map (fun m => (r, m))
                       (filter (fun m => Z.eqb (m_id m) (mr_mission_id r)) ms)) rs.

Definition mission_row_of (channel_id : Z) (officer_id : pystr)
    (row : mission_officer_response * mission_history) : bool :=
  pystr_eqb (mr_officer_id (fst row)) officer_id
  && Z.eqb (m_channel_id (snd row)) channel_id
  && mr_success (fst row).

Definition NOTES_HEADER : pystr := s "### Manual Notes:" ++ nl.
Definition MISSIONS_HEADER : pystr := s "### Recent Missions:" ++ nl.

Definition note_line (n : manual_note) : pystr := s "- " ++ n_note_content n.

Definition mission_line (row : mission_officer_response * mission_history) : pystr :=
  s "- Brief: " ++ slice_to 100 (m_mission_brief (snd row)) ++ s "... | Response: "
  ++ slice_to 200 (mr_response_content (fst row)) ++ s "...".

(** [load_officer_memory] *)
Definition load_officer_memory (d : db) (channel_id : Z) (officer_id : pystr)
    (max_tokens : nat) : pystr :=
  let notes := firstn 10 (sort_by note_order
                 (filter (note_of channel_id officer_id) (manual_notes d))) in
  let mission_data := firstn 5 (sort_by mission_order
                 (filter (mission_row_of channel_id officer_id)
                    (join_missions (responses d) (missions d)))) in
  let context_parts :=
    (match notes with
     | [] => []
     | _ => [NOTES_HEADER ++ join nl (map note_line notes)]
     end)
    ++ (match mission_data with
        | [] => []
        | _ => [MISSIONS_HEADER ++ join nl (map mission_line mission_data)]
        end) in
  let full_context := join (nl ++ nl) context_parts in
  let estimated_tokens := Nat.div (List.length full_context) 4 in
  if Nat.ltb max_tokens estimated_tokens then slice_to (max_tokens * 4) full_context
  else full_context.

(** [add_manual_note]: one inserted row, with the server-side defaults
    ([created_at] = [updated_at] = now, [is_pinned] = False); returns
    True. *)
Definition add_manual_note (d : db) (now channel_id : Z) (officer_id note_content : pystr)
    (created_by_user_id : Z) : db * bool :=
  let note := mk_note (next_note_id d) officer_id channel_id note_content
                created_by_user_id now now false in
  (mk_db (manual_notes d ++ [note]) (missions d) (responses d) (next_note_id d + 1)%Z, true).

(** [clear_officer_memory]: delete every note selected for the pair. *)
Definition clear_officer_memory (d : db) (channel_id : Z) (officer_id : pystr) : db :=
  let notes_to_delete := filter (note_of channel_id officer_id) (manual_notes d) in
  mk_db (filter (fun n => negb (note_of channel_id officer_id n)) (manual_notes d))
        (missions d) (responses d) (next_note_id d).

Definition text_embed (n : nat) : embed :=
  mk_embed (Some (s "T")) (Some (repeat 97%Z n)) None None [(s "k", s "v")].

(** A batch the loop may send: within the ceiling, or one oversized embed. *)
Definition ok_batch (b : list embed) : Prop :=
  batch_size b <= MAX_EMBED_SIZE
  \/ exists e, b = [e] /\ MAX_EMBED_SIZE < calculate_embed_size e.

Definition restrict_to_pair (d : db) (channel_id : Z) (officer_id : pystr) : db :=
  mk_db (filter (note_of channel_id officer_id) (manual_notes d))
        (filter (fun m => Z.eqb (m_channel_id m) channel_id) (missions d))
        (filter (fun r => pystr_eqb (mr_officer_id r) officer_id) (responses d))
        (next_note_id d).

(** The resolved officer subset as section 4.2 of the specification
    describes it: the whole active roster without a filter, otherwise the
    roster members whose class matches case-insensitively, in roster
    order. *)
Definition officer_matches (cfg : config) (cc officer_id : pystr) : bool :=
  match lookup_officer cfg officer_id with
  | Ok o => pystr_eqb (lower (capability_class_or [] o)) (lower cc)
  | Raise _ => false
  end.

Definition resolved_officers_spec (cfg : config) (capability_class : option pystr)
  : list pystr :=
  match capability_class with
  | Some cc => if opt_truthy capability_class
               then filter (officer_matches cfg cc) (ACTIVE_ROSTER cfg)
               else ACTIVE_ROSTER cfg
  | None => ACTIVE_ROSTER cfg
  end.

(** Every active officer is in [OFFICERS] with a usable color. *)
Definition roster_ok (cfg : config) : Prop :=
  forall officer_id, In officer_id (ACTIVE_ROSTER cfg) ->
  exists o z, lookup_officer cfg officer_id = Ok o /\ get_officer_color o = Ok z.

(** ** A sample roster and endpoint behaviours *)

Definition demo_officer (model cls : pystr) : officer :=
  mk_officer (s "Officer") model (s "General") (s "You are an officer.") (Some cls) None.

Definition demo_cfg : config :=
  mk_config
    [(s "O1", demo_officer (s "anthropic/claude-3-haiku") (s "Strategic"));
     (s "O2", demo_officer (s "perplexity/sonar") (s "Strategic"));
     (s "O3", demo_officer (s "google/gemini-pro") (s "strategic"));
     (s "O4", demo_officer (s "openai/gpt-4o") (s "Strategic"));
     (s "O5", mk_officer (s "Quartermaster") (s "x-ai/grok") (s "Logistics")
                (s "You are the quartermaster.") (Some (s "Support")) (Some (s "0xF39C12")))]
    [s "O1"; s "O2"; s "O3"; s "O4"; s "O5"].

Definition no_memory (_ : Z) (_ : pystr) : py pystr := Ok [].

Definition post_raises (e : exn) (_ : json) : py http_response := Raise e.

Definition post_returns (v : json) (_ : json) : py http_response :=
  Ok (mk_response 200 (Some v)).

Definition completion_body (message : json) : json :=
  JDict [(s "choices", JList [JDict [(s "message", message)]])].

Definition demo_note (id : Z) (officer_id : pystr) (channel_id : Z) (text : pystr)
    (at_ : Z) (pinned : bool) : manual_note :=
  mk_note id officer_id channel_id text 7 at_ at_ pinned.

Definition demo_db : db :=
  mk_db [demo_note 1 (s "O1") 1 (s "prefers short answers") 10 false;
         demo_note 2 (s "O2") 1 (s "budget is fixed") 11 false;
         demo_note 3 (s "O1") 2 (s "other channel") 12 false;
         demo_note 4 (s "O1") 1 (s "launch on Monday") 13 true]
        [mk_mission 1 1 (s "Plan the launch") 20 None None 7 None;
         mk_mission 2 2 (s "Review hiring") 21 None None 7 None]
        [mk_response_row 1 1 (s "O1") (s "Ship it") (Some 2%Z) true None 20;
         mk_response_row 2 1 (s "O2") (s "Wait") (Some 1%Z) true None 20;
         mk_response_row 3 2 (s "O1") (s "Hire two") (Some 2%Z) true None 21;
         mk_response_row 4 1 (s "O1") (s "Error: boom") None false (Some (s "boom")) 20]
        5.

(* ------------------------------------------------------------------ *)
(** ** The rest of the schema and its writers ([db_manager.py]) *)

(** A row of [channels]. *)
Record channel_row : Type := mk_channel {
  ch_channel_id : Z;
  ch_channel_name : pystr;
  ch_guild_id : Z;
  ch_created_at : Z;
  ch_updated_at : Z
}.

(** A row of [officers]. *)
Record officer_row : Type := mk_officer_row {
  or_officer_id : pystr;
  or_title : pystr;
  or_model : pystr;
  or_capability_class : pystr;
  or_specialty : pystr;
  or_system_prompt : pystr;
  or_created_at : Z
}.

(** The whole database: the memory tables of [db], the [channels] and
    [officers] tables, and the next values of the id sequences of
    [mission_history] and [mission_officer_response]. *)
Record store : Type := mk_store {
  st_db : db;
  channels : list channel_row;
  officers : list officer_row;
  next_mission_id : Z;
  next_response_id : Z
}.

(** PostgreSQL refuses a value longer than a [String(n)] column. *)
Definition varchar (n : nat) (v : pystr) : py unit :=
  if Nat.leb (List.length v) n then Ok tt
  else Raise (mk_exn DatabaseError
         (s "value too long for type character varying(" ++ dec (Z.of_nat n) ++ s ")")).

Definition fk_violation (table : pystr) : exn :=
  mk_exn DatabaseError (s "insert violates foreign key constraint on " ++ table).

Definition has_channel (st : store) (channel_id : Z) : bool :=
  existsb (fun c => Z.eqb (ch_channel_id c) channel_id) (channels st).

Definition has_officer (st : store) (officer_id : pystr) : bool :=
  existsb (fun r => pystr_eqb (or_officer_id r) officer_id) (officers st).

(** One iteration of the loop of [seed_officers]: read the fields
    ([officer_data["capability_class"]] raises [KeyError] when the key
    is absent), then update the existing row in place or add a new one
    ([created_at] defaults to now); the column widths are checked when
    the row is flushed. *)
Definition seed_one (now : Z) (rows : list officer_row) (officer_id : pystr) (o : officer)
  : py (list officer_row) :=
  let! cls := match o_capability_class o with
              | Some c => Ok c
              | None => Raise (mk_exn KeyError (quote (s "capability_class")))
              end in
  let! _u1 := varchar 10 officer_id in
  let! _u2 := varchar 100 (o_title o) in
  let! _u3 := varchar 100 (o_model o) in
  let! _u4 := varchar 50 cls in
  let! _u5 := varchar 100 (o_specialty o) in
  if existsb (fun r => pystr_eqb (or_officer_id r) officer_id) rows
  then Ok (map (fun r => if pystr_eqb (or_officer_id r) officer_id
                         then mk_officer_row (or_officer_id r) (o_title o) (o_model o) cls
                                (o_specialty o) (o_system_prompt o) (or_created_at r)
                         else r) rows)
  else Ok (rows ++ [mk_officer_row officer_id (o_title o) (o_model o) cls
                      (o_specialty o) (o_system_prompt o) now]).

Fixpoint seed_loop (now : Z) (rows : list officer_row) (items : list (pystr * officer))
  : py (list officer_row) :=
  match items with
  | [] => Ok rows
  | (officer_id, o) :: rest =>
      let! rows := seed_one now rows officer_id o in
      seed_loop now rows rest
  end.

(** [seed_officers]: the officers absent from the roster are only
    reported, never deleted; an exception leaves the session
    uncommitted. *)
Definition seed_officers (st : store) (officers_dict : list (pystr * officer)) (now : Z)
  : py store :=
  let! rows := seed_loop now (officers st) officers_dict in
  Ok (mk_store (st_db st) (channels st) rows (next_mission_id st) (next_response_id st)).

(** [ensure_channel_exists] *)
Definition ensure_channel_exists (st : store) (channel_id : Z) (channel_name : pystr)
    (guild_id now : Z) : py store :=
  if has_channel st channel_id then Ok st else
  let! _u := varchar 255 channel_name in
  Ok (mk_store (st_db st)
        (channels st ++ [mk_channel channel_id channel_name guild_id now now])
        (officers st) (next_mission_id st) (next_response_id st)).

(** [response_data["response"][:2000]] and [len(response_data["response"])]:
    a [str] gives its first 2000 characters and its length; a list is
    sliced too, but it is no text and the driver refuses it when the row
    is written ([None]); [None], a bool, an int or a dict cannot be sliced
    (for a dict the exception, modelled as the [TypeError] of Python
    before 3.12, is a [KeyError] from 3.12 on). *)
Definition response_slice (v : json) : py (option (pystr * nat)) :=
  match v with
  | JStr t => Ok (Some (slice_to 2000 t, List.length t))
  | JList _ => Ok None
  | JDict _ => Raise (mk_exn TypeError (s "unhashable type: 'slice'"))
  | _ => Raise (mk_exn TypeError (quote (type_name v) ++ s " object is not subscriptable"))
  end.

(** The loop of [save_mission]: one [MissionOfficerResponse] per result,
    in order, the ids being drawn from the sequence when they are
    flushed. *)
Fixpoint response_rows (mission_id next_id now : Z) (officer_responses : list result)
  : py (list (option mission_officer_response)) :=
  match officer_responses with
  | [] => Ok []
  | response_data :: rest =>
      let! sl := response_slice (r_response response_data) in
      let! rows := response_rows mission_id (next_id + 1) now rest in
      Ok (option_map (fun '(t, n) =>
            mk_response_row next_id mission_id (r_officer_id response_data) t
              (Some (Z.of_nat n / 4)%Z) (r_success response_data)
              (r_error response_data) now) sl :: rows)
  end.

Fixpoint all_some {A} (l : list (option A)) : option (list A) :=
  match l with
  | [] => Some []
  | Some x :: l' => option_map (cons x) (all_some l')
  | None :: _ => None
  end.

(** [await session.commit()] of the response rows. *)
Definition commit_responses (st : store) (rows : list (option mission_officer_response))
  : py (list mission_officer_response) :=
  match all_some rows with
  | None => Raise (mk_exn DatabaseError (s "invalid input for query argument: expected str"))
  | Some rs =>
      if forallb (fun r => has_officer st (mr_officer_id r)) rs then Ok rs
      else Raise (fk_violation (s "mission_officer_response"))
  end.

(** The body shared by [save_mission] and [save_research_mission]:
    [started_at] and [completed_at] are both the current time, the mission
    row is flushed (foreign key [channel_id], width of
    [capability_class_filter]) before the responses are built; an
    exception rolls the session back (the sequence values PostgreSQL
    consumes on that path are not modelled). Returns [mission.id]. *)
Definition save_mission_rows (st : store) (channel_id : Z) (mission_brief : pystr)
    (user_id : Z) (capability_class_filter : option pystr)
    (officer_responses : list result) (extra_metadata : json) (now : Z) : py (store * Z) :=
  let mission_id := next_mission_id st in
  let mission := mk_mission mission_id channel_id (slice_to 1000 mission_brief) now
                   (Some now) capability_class_filter user_id (Some extra_metadata) in
  let! _u1 := (if has_channel st channel_id then Ok tt
               else Raise (fk_violation (s "mission_history"))) in
  let! _u2 := varchar 50 (match capability_class_filter with Some c => c | None => [] end) in
  let! rows := response_rows mission_id (next_response_id st) now officer_responses in
  let! rs := commit_responses st rows in
  let d := st_db st in
  Ok (mk_store (mk_db (manual_notes d) (missions d ++ [mission]) (responses d ++ rs)
                      (next_note_id d))
        (channels st) (officers st) (mission_id + 1)%Z
        (next_response_id st + Z.of_nat (List.length rs))%Z,
      mission_id).

(** [save_mission]: [extra_metadata] takes its column default, [{}]. *)
Definition save_mission (st : store) (channel_id : Z) (mission_brief : pystr) (user_id : Z)
    (capability_class_filter : option pystr) (officer_responses : list result) (now : Z)
  : py (store * Z) :=
  save_mission_rows st channel_id mission_brief user_id capability_class_filter
    officer_responses (JDict []) now.


(** [f"O{i}" for i in range(1, 17)] *)
Definition stats_officer_ids : list pystr :=
  map (fun i => s "O" ++ dec (Z.of_nat i)) (seq 1 16).

(** [get_channel_stats]: for each of the sixteen ids, the number of its
    notes in the channel and of its responses to the channel's missions
    (failed ones included). *)
Definition get_channel_stats (d : db) (channel_id : Z) : list (pystr * (nat * nat)) :=
  map (fun officer_id =>
         (officer_id,
          (List.length (filter (note_of channel_id officer_id) (manual_notes d)),
           List.length (filter (fun row => pystr_eqb (mr_officer_id (fst row)) officer_id
                                           && Z.eqb (m_channel_id (snd row)) channel_id)
                          (join_missions (responses d) (missions d))))))
      stats_officer_ids.

(* ------------------------------------------------------------------ *)
(** ** The [/memory] command and its confirmation view ([bot.py]) *)

(** "❌" U+274C, "✅" U+2705, "📊" U+1F4CA, "🧠" U+1F9E0. *)
Definition CROSS : pystr := [10060%Z].
Definition CHECK : pystr := [9989%Z].
Definition CHART : pystr := [128202%Z].
Definition BRAIN : pystr := [129504%Z].

(** What a handler answers: a text, an embed (title, description, color
    and fields), the text of a [ConfirmClearView] with its channel and
    officer, or nothing. *)
Inductive reply : Type :=
| RText (text : pystr)
| REmbed (title description : pystr) (color : Z) (fields : list (pystr * pystr))
| RConfirm (text : pystr) (channel_id : Z) (officer_id : pystr)
| RNone.

(** [officer_id in OFFICERS] *)
Definition officer_known (cfg : config) (officer_id : pystr) : bool :=
  match lookup_officer cfg officer_id with Ok _ => true | Raise _ => false end.

Definition NEED_OFFICER : pystr := CROSS ++ s " Please specify an officer_id".
Definition NEED_OFFICER_AND_NOTE : pystr := CROSS ++ s " Please specify officer_id and note".
Definition INVALID_OFFICER (officer_id : pystr) : pystr :=
  CROSS ++ s " Invalid officer_id: " ++ officer_id.
Definition NOTE_ADDED (officer_id : pystr) : pystr :=
  CHECK ++ s " Added note to " ++ officer_id ++ s "'s memory in this channel".
Definition CLEAR_PROMPT (officer_id : pystr) : pystr :=
  WARN ++ s " Clear all manual notes for " ++ officer_id ++ s " in this channel?".
Definition NO_MEMORY_YET : pystr := s "No memory yet".

(** The fields of the stats embed: the ids present in [OFFICERS]. *)
Definition stats_fields (cfg : config) (stats : list (pystr * (nat * nat)))
  : list (pystr * pystr) :=
  flat_map (fun entry =>
    let '(off_id, (notes, missions)) := entry in
    match lookup_officer cfg off_id with
    | Ok o => [(off_id ++ s " - " ++ o_title o,
                s "Notes: " ++ dec (Z.of_nat notes) ++ s " | Missions: "
                ++ dec (Z.of_nat missions))]
    | Raise _ => []
    end) stats.

(** [memory]: the store after the command and its answer. An action
    outside the four choices answers nothing. *)
Definition memory_command (cfg : config) (d : db) (channel_id : Z) (channel_name : pystr)
    (user_id now : Z) (action : pystr) (officer_id note : option pystr) : py (db * reply) :=
  if pystr_eqb action (s "stats") then
    let stats := get_channel_stats d channel_id in
    Ok (d, REmbed (CHART ++ s " Channel Memory Statistics")
             (s "Memory status for " ++ channel_name) 3447003 (stats_fields cfg stats))
  else if pystr_eqb action (s "view") then
    match officer_id with
    | Some oid =>
        if negb (opt_truthy officer_id) then Ok (d, RText NEED_OFFICER) else
        match lookup_officer cfg oid with
        | Raise _ => Ok (d, RText (INVALID_OFFICER oid))
        | Ok o =>
            let memory_text := load_officer_memory d channel_id oid 2000 in
            let! color := get_officer_color o in
            Ok (d, REmbed (BRAIN ++ s " Memory: " ++ oid ++ s " - " ++ o_title o)
                     (if pystr_eqb memory_text [] then NO_MEMORY_YET else memory_text)
                     color [])
        end
    | None => Ok (d, RText NEED_OFFICER)
    end
  else if pystr_eqb action (s "add") then
    match officer_id, note with
    | Some oid, Some text =>
        if negb (opt_truthy officer_id) || negb (opt_truthy note)
        then Ok (d, RText NEED_OFFICER_AND_NOTE) else
        if negb (officer_known cfg oid) then Ok (d, RText (INVALID_OFFICER oid)) else
        let '(d', _) := add_manual_note d now channel_id oid text user_id in
        Ok (d', RText (NOTE_ADDED oid))
    | _, _ => Ok (d, RText NEED_OFFICER_AND_NOTE)
    end
  else if pystr_eqb action (s "clear") then
    match officer_id with
    | Some oid =>
        if negb (opt_truthy officer_id) then Ok (d, RText NEED_OFFICER) else
        if negb (officer_known cfg oid) then Ok (d, RText (INVALID_OFFICER oid)) else
        Ok (d, RConfirm (CLEAR_PROMPT oid) channel_id oid)
    | None => Ok (d, RText NEED_OFFICER)
    end
  else Ok (d, RNone).

(** [ConfirmClearView.confirm] and [ConfirmClearView.cancel] *)
Definition confirm_clear (d : db) (channel_id : Z) (officer_id : pystr) : db * reply :=
  (clear_officer_memory d channel_id officer_id,
   RText (CHECK ++ s " Cleared " ++ officer_id ++ s "'s memory")).

Definition cancel_clear (d : db) : db * reply := (d, RText (CROSS ++ s " Cancelled")).

(* ------------------------------------------------------------------ *)
(** ** The [/mission] and [/research] commands ([bot.py]) *)

(** [str.title] on the ASCII letters: a letter is upper-cased after a
    non-letter and lower-cased after a letter. *)
Definition upper_cp (c : Z) : Z :=
  if (97 <=? c)%Z && (c <=? 122)%Z then (c - 32)%Z else c.
Definition is_alpha_cp (c : Z) : bool :=
  ((65 <=? c)%Z && (c <=? 90)%Z) || ((97 <=? c)%Z && (c <=? 122)%Z).
Fixpoint title_aux (prev_cased : bool) (w : pystr) : pystr :=
  match w with
  | [] => []
  | c :: w' => (if prev_cased then lower_cp c else upper_cp c) :: title_aux (is_alpha_cp c) w'
  end.
Definition py_title (w : pystr) : pystr := title_aux false w.

(** "•" U+2022, "🎯" U+1F3AF, "🔬" U+1F52C, "🌐" U+1F310. *)
Definition BULLET : pystr := [8226%Z].
Definition TARGET : pystr := [127919%Z].

(** A [for] loop that builds one value per element, stopping at the
    first exception. *)
Fixpoint py_map {A B} (f : A -> py B) (l : list A) : py (list B) :=
  match l with
  | [] => Ok []
  | x :: l' => let! y := f x in let! ys := py_map f l' in Ok (y :: ys)
  end.

(** [result["response"][:n]] for a [str] response; a response that is
    not a [str] never gets here in the commands below, whose
    [save_mission] call refuses it first. *)
Definition response_prefix (n : nat) (v : json) : py pystr :=
  match v with
  | JStr t => Ok (slice_to n t)
  | _ => Raise (mk_exn TypeError (quote (type_name v) ++ s " object is not subscriptable"))
  end.

Definition officer_heading (r : result) : pystr :=
  s "**[" ++ r_officer_id r ++ s " - " ++ r_title r ++ s "]** " ++ BULLET ++ s " " ++ r_model r.

Definition status_fields (r : result) : list (pystr * pystr) :=
  [(s "Class", r_capability_class r); (s "Specialty", r_specialty r);
   (s "Status", if r_success r then CHECK ++ s " Complete" else CROSS ++ s " Error")].

(** The embed of one result in [mission] (and [PivotModal.on_submit]). *)
Definition officer_embed (r : result) : py embed :=
  let! description := response_prefix 4096 (r_response r) in
  Ok (mk_embed (Some (officer_heading r)) (Some description) None None (status_fields r)).

(** The views attached to the last message. *)
Inductive command_view : Type :=
| WarRoomView (mission_brief : pystr) (results : list result) (capability_class : option pystr)
| ResearchView (topic : pystr) (results : list result) (capability_class : pystr)
    (use_web_search : bool).

(** What a command sends through [interaction.followup.send]. *)
Inductive command_reply : Type :=
| CText (text : pystr)
| CSent (messages : list (send command_view)).

Definition NO_OFFICERS (capability_class : option pystr) : pystr :=
  CROSS ++ s " No officers found for capability class: **" ++ opt_str capability_class
  ++ s "**" ++ nl ++ s "Available classes: Strategic, Operational, Tactical, Support".

(** The memory loader the queries call: [load_officer_memory] on the
    current store with its default [max_tokens = 2000]. *)
Definition store_memory (st : store) (channel_id : Z) (officer_id : pystr) : py pystr :=
  Ok (load_officer_memory (st_db st) channel_id officer_id 2000).

(** [mission]: the store afterwards and what is sent. *)
Definition mission_command (cfg : config) (post : json -> py http_response) (st : store)
    (channel_id : Z) (channel_name : pystr) (guild_id user_id : Z)
    (display_name brief : pystr) (capability_class : option pystr) (now : Z)
  : py (store * command_reply) :=
  let! st := ensure_channel_exists st channel_id channel_name guild_id now in
  let! results := query_all_officers cfg (store_memory st) post brief capability_class
                    (Some channel_id) in
  let! saved := save_mission st channel_id brief user_id capability_class results now in
  let st := fst saved in
  match results with
  | [] => Ok (st, CText (NO_OFFICERS capability_class))
  | _ =>
      let header_title :=
        TARGET ++ s " War Room Mission Brief"
        ++ (match capability_class with
            | Some cc => if opt_truthy capability_class
                         then s " - " ++ py_title cc ++ s " Class" else []
            | None => []
            end) in
      let header_embed :=
        mk_embed (Some header_title) (Some brief)
          (Some (s "Requested by " ++ display_name ++ s " " ++ BULLET ++ s " Officers: "
                 ++ dec (Z.of_nat (List.length results))))
          None [] in
      let! officer_embeds := py_map officer_embed results in
      Ok (st, CSent (send_embeds_in_batches (header_embed :: officer_embeds)
                       (Some (WarRoomView brief results capability_class))))
  end.







(** The row [save_mission] writes for one result, given its mission id
    and the current time. *)
Definition saved_row (mission_id now : Z) (r : result) (row : mission_officer_response) : Prop :=
  mr_mission_id row = mission_id
  /\ mr_officer_id row = r_officer_id r
  /\ (exists t, r_response r = JStr t /\ mr_response_content row = slice_to 2000 t
                /\ mr_tokens_used row = Some (Z.of_nat (List.length t) / 4)%Z)
  /\ mr_success row = r_success r
  /\ mr_error_message row = r_error r
  /\ mr_created_at row = now.


(** The [officers] row [seed_officers] writes for a roster entry. *)
Definition officer_row_of (officer_id : pystr) (o : officer) (r : officer_row) : Prop :=
  or_officer_id r = officer_id
  /\ or_title r = o_title o /\ or_model r = o_model o
  /\ o_capability_class o = Some (or_capability_class r)
  /\ or_specialty r = o_specialty o /\ or_system_prompt r = o_system_prompt o.


(** [k in v] for a decoded dict. *)
Definition json_has_key (v : json) (k : pystr) : bool :=
  match v with
  | JDict kv => match dict_lookup kv k with Some _ => true | None => false end
  | _ => false
  end.

(** ** A sample store *)

Definition demo_officer_row (officer_id : pystr) : officer_row :=
  mk_officer_row officer_id (s "Officer") (s "openai/gpt-4o") (s "Strategic") (s "General")
    (s "You are an officer.") 0.

Definition demo_store : store :=
  mk_store demo_db [mk_channel 1 (s "general") 9 0 0]
    [demo_officer_row (s "O1"); demo_officer_row (s "O2"); demo_officer_row (s "O3")] 3 5.

Definition demo_result (officer_id : pystr) (response : json) : result :=
  mk_result officer_id (s "Officer") (s "openai/gpt-4o") (s "General") (s "Strategic") 0 None
    response true None.


(* ================================================================== *)
(** * Properties *)

(** ** Strings *)

Lemma pystr_eqb_eq (a b : pystr) : pystr_eqb a b = true <-> a = b.
Proof.
  revert b; induction a as [|x a IH]; intros [|y b]; simpl; try (split; congruence).
  rewrite andb_true_iff, Z.eqb_eq, IH. split; [intros [-> ->]; reflexivity|].
  intros H; injection H; auto.
Qed.

Lemma startswith_spec (w p : pystr) : startswith w p = true <-> exists v, w = p ++ v.
Proof.
  revert w; induction p as [|a p IH]; intros [|b w]; simpl.
  - split; eauto.
  - split; eauto.
  - split; [discriminate | intros [v Hv]; discriminate].
  - rewrite andb_true_iff, Z.eqb_eq, IH. split.
    + intros [-> [v ->]]. eauto.
    + intros [v Hv]. injection Hv as -> ->. eauto.
Qed.

Lemma str_in_spec (p w : pystr) : str_in p w = true <-> exists u v, w = u ++ p ++ v.
Proof.
  induction w as [|b w IH]; cbn [str_in]; rewrite orb_true_iff, startswith_spec.
  - split.
    + intros [[v Hv] | H]; [exists [], v; exact Hv | discriminate].
    + intros [[|c u] [v Hv]]; [left; eauto | discriminate].
  - rewrite IH. split.
    + intros [[v Hv] | [u [v Hv]]].
      * exists [], v. exact Hv.
      * exists (b :: u), v. rewrite Hv. reflexivity.
    + intros [[|c u] [v Hv]].
      * left. eauto.
      * right. injection Hv as -> ->. eauto.
Qed.

(** ** Batching *)

Lemma batch_size_app (a b : list embed) : batch_size (a ++ b) = batch_size a + batch_size b.
Proof. induction a as [|e a IH]; simpl; [reflexivity | rewrite IH; lia]. Qed.

Lemma batch_loop_concat {V} (es : list embed) (sent : list (send V)) cb cs :
  let '(sent', cb', _) := batch_loop es sent cb cs in
  List.concat (map sent_embeds sent') ++ cb' = List.concat (map sent_embeds sent) ++ cb ++ es.
Proof.
  revert sent cb cs; induction es as [|e es IH]; intros sent cb cs; simpl.
  - now rewrite app_nil_r.
  - destruct (Nat.ltb MAX_EMBED_SIZE (cs + calculate_embed_size e)
              && negb match cb with [] => true | _ => false end).
    + specialize (IH (sent ++ [mk_send cb None]) ([] ++ [e]) (0 + calculate_embed_size e)).
      destruct (batch_loop es _ _ _) as [[s1 c1] n1]. rewrite IH.
      rewrite map_app, concat_app. simpl. now rewrite !app_assoc, app_nil_r.
    + specialize (IH sent (cb ++ [e]) (cs + calculate_embed_size e)).
      destruct (batch_loop es _ _ _) as [[s1 c1] n1]. rewrite IH.
      now rewrite <- !app_assoc.
Qed.


Lemma ok_single (e : embed) : ok_batch [e].
Proof.
  destruct (Nat.le_gt_cases (calculate_embed_size e) MAX_EMBED_SIZE).
  - left. simpl. lia.
  - right. exists e. auto.
Qed.

Lemma batch_loop_bound {V} (es : list embed) (sent : list (send V)) cb cs :
  (forall x, In x sent -> ok_batch (sent_embeds x)) ->
  ok_batch cb -> cs = batch_size cb ->
  let '(sent', cb', cs') := batch_loop es sent cb cs in
  (forall x, In x sent' -> ok_batch (sent_embeds x)) /\ ok_batch cb' /\ cs' = batch_size cb'.
Proof.
  revert sent cb cs; induction es as [|e es IH]; intros sent cb cs Hs Hcb Hcs; subst cs; simpl.
  - auto.
  - set (z := calculate_embed_size e).
    destruct (Nat.ltb MAX_EMBED_SIZE (batch_size cb + z)) eqn:Hlt; simpl.
    + destruct cb as [|e0 cb0]; simpl; apply IH; try apply ok_single; try (simpl; unfold z; lia).
      * exact Hs.
      * intros x Hx. apply in_app_or in Hx as [Hx | [<- | []]]; auto.
    + apply IH; auto.
      * left. rewrite batch_size_app. simpl. apply Nat.ltb_ge in Hlt. unfold z in *. lia.
      * rewrite batch_size_app. simpl. unfold z. lia.
Qed.



Example batches_of_three_large :
  map (fun x => (List.length (sent_embeds x), sent_view x))
    (send_embeds_in_batches [text_embed 3000; text_embed 3000; text_embed 3000] (Some tt))
  = [(1, None); (1, None); (1, Some tt)].
Proof. vm_compute. reflexivity. Qed.

Example batches_pack_small :
  map (fun x => List.length (sent_embeds x))
    (send_embeds_in_batches [text_embed 2000; text_embed 2000; text_embed 2000; text_embed 10]
       (@None unit))
  = [2; 2].
Proof. vm_compute. reflexivity. Qed.

(** C3: concatenating the embeds of the messages sent, in sending order,
    gives back the input sequence, and an empty input sends nothing. *)
Theorem send_embeds_in_batches_concat {V} (embeds : list embed) (view : option V) :
  List.concat (map sent_embeds (send_embeds_in_batches embeds view)) = embeds
  /\ (embeds = [] -> send_embeds_in_batches embeds view = []).
Proof.
  split.
  - unfold send_embeds_in_batches.
    pose proof (batch_loop_concat (V:=V) embeds [] [] 0) as H.
    destruct (batch_loop embeds [] [] 0) as [[sent cb] cs]. simpl in H.
    destruct cb as [|e cb].
    + rewrite app_nil_r in H. exact H.
    + rewrite map_app, concat_app. simpl. rewrite app_nil_r. exact H.
  - intros ->. reflexivity.
Qed.

(** C4: every message's embeds total at most [MAX_EMBED_SIZE], unless
    the message is a single embed that alone exceeds it; an embed
    larger than the ceiling is always sent alone. *)
Theorem send_embeds_in_batches_size {V} (embeds : list embed) (view : option V) :
  forall b, In b (map sent_embeds (send_embeds_in_batches embeds view)) ->
  (batch_size b <= MAX_EMBED_SIZE
   \/ exists e, b = [e] /\ MAX_EMBED_SIZE < calculate_embed_size e)
  /\ (forall e, In e b -> MAX_EMBED_SIZE < calculate_embed_size e -> b = [e]).
Proof.
  assert (Hok : forall b, In b (map sent_embeds (send_embeds_in_batches embeds view)) ->
                          ok_batch b).
  { unfold send_embeds_in_batches.
    pose proof (batch_loop_bound (V:=V) embeds [] [] 0) as H.
    destruct (batch_loop embeds [] [] 0) as [[sent cb] cs].
    destruct H as [Hs [Hcb _]]; [intros x []| left; simpl; lia | reflexivity |].
    intros b Hb. apply in_map_iff in Hb as [x [<- Hx]].
    destruct cb as [|e cb]; [now apply Hs |].
    apply in_app_or in Hx as [Hx | [<- | []]]; [now apply Hs | exact Hcb]. }
  intros b Hb. specialize (Hok b Hb). split; [exact Hok |].
  intros e He Hbig. destruct Hok as [Hle | [e' [-> _]]].
  - exfalso.
    assert (calculate_embed_size e <= batch_size b).
    { clear -He. induction b as [|x b IH]; simpl in *; [contradiction |].
      destruct He as [<- | He]; [lia | specialize (IH He); lia]. }
    lia.
  - destruct He as [<- | []]. reflexivity.
Qed.

(** ** Web-search capability *)

(** C9: [model_supports_web_search] holds exactly when the lowercased
    name contains "perplexity", or both "google" and "gemini"; it is
    true for "perplexity/sonar" and false for "google/palm-2" and
    "anthropic/claude-3-haiku". *)
Theorem model_supports_web_search_spec (model_name : pystr) :
  (model_supports_web_search model_name = true <->
     (exists u v, lower model_name = u ++ s "perplexity" ++ v)
     \/ ((exists u v, lower model_name = u ++ s "google" ++ v)
         /\ (exists u v, lower model_name = u ++ s "gemini" ++ v)))
  /\ model_supports_web_search (s "perplexity/sonar") = true
  /\ model_supports_web_search (s "google/palm-2") = false
  /\ model_supports_web_search (s "anthropic/claude-3-haiku") = false.
Proof.
  split; [| vm_compute; auto].
  unfold model_supports_web_search.
  rewrite orb_true_iff, andb_true_iff, !str_in_spec. reflexivity.
Qed.

(** ** Memory isolation and clearing *)

Lemma filter_filter_imp {A} (P Q : A -> bool) (l : list A) :
  (forall x, P x = true -> Q x = true) -> filter P (filter Q l) = filter P l.
Proof.
  intros H. induction l as [|x l IH]; simpl; [reflexivity |].
  destruct (Q x) eqn:Hq; simpl.
  - now rewrite IH.
  - destruct (P x) eqn:Hp; [specialize (H x Hp); congruence | exact IH].
Qed.

Lemma note_of_true c o n : note_of c o n = true <-> n_officer_id n = o /\ n_channel_id n = c.
Proof. unfold note_of. rewrite andb_true_iff, pystr_eqb_eq, Z.eqb_eq. reflexivity. Qed.


Lemma filter_map_filter {A B} (P : B -> bool) (f : A -> B) (Q : A -> bool) (l : list A) :
  (forall x, P (f x) = true -> Q x = true) -> filter P (map f (filter Q l)) = filter P (map f l).
Proof.
  intros H. induction l as [|x l IH]; simpl; [reflexivity |].
  destruct (Q x) eqn:Hq; simpl.
  - now rewrite IH.
  - destruct (P (f x)) eqn:Hp; [specialize (H x Hp); congruence | exact IH].
Qed.

Lemma filter_map_none {A B} (P : B -> bool) (f : A -> B) (l : list A) :
  (forall x, P (f x) = false) -> filter P (map f l) = [].
Proof. intros H. induction l as [|x l IH]; simpl; [reflexivity | now rewrite H]. Qed.

Lemma filter_comm {A} (P Q : A -> bool) (l : list A) :
  filter P (filter Q l) = filter Q (filter P l).
Proof.
  induction l as [|x l IH]; simpl; [reflexivity |].
  destruct (Q x) eqn:Hq, (P x) eqn:Hp; simpl; rewrite ?Hq, ?Hp, IH; reflexivity.
Qed.

Lemma join_restrict (c : Z) (o : pystr) rs ms :
  filter (mission_row_of c o)
    (join_missions (filter (fun r => pystr_eqb (mr_officer_id r) o) rs)
                   (filter (fun m => Z.eqb (m_channel_id m) c) ms))
  = filter (mission_row_of c o) (join_missions rs ms).
Proof.
  unfold join_missions. induction rs as [|r rs IH]; simpl; [reflexivity |].
  destruct (pystr_eqb (mr_officer_id r) o) eqn:Ho; simpl; rewrite ?filter_app, IH.
  - f_equal. rewrite filter_comm. apply filter_map_filter.
    intros m Hm. unfold mission_row_of in Hm. simpl in Hm.
    apply andb_true_iff in Hm as [Hm _]. apply andb_true_iff in Hm as [_ Hm]. exact Hm.
  - rewrite filter_map_none; [reflexivity |].
    intros m. unfold mission_row_of. simpl. rewrite Ho. reflexivity.
Qed.

(** C7: a note added under one (officer, channel) pair leaves the
    memory loaded for every other pair unchanged, and the memory of a
    pair depends only on that pair's notes, the responses of that
    officer and the missions of that channel. *)
Theorem load_officer_memory_isolated :
  (forall (d : db) (now channelA : Z) (officerA note_content : pystr) (user_id : Z)
          (channel_id : Z) (officer_id : pystr) (max_tokens : nat),
     (channel_id <> channelA \/ officer_id <> officerA) ->
     load_officer_memory (fst (add_manual_note d now channelA officerA note_content user_id))
       channel_id officer_id max_tokens
     = load_officer_memory d channel_id officer_id max_tokens)
  /\ (forall (d : db) (channel_id : Z) (officer_id : pystr) (max_tokens : nat),
        load_officer_memory d channel_id officer_id max_tokens
        = load_officer_memory (restrict_to_pair d channel_id officer_id)
            channel_id officer_id max_tokens).
Proof.
  split.
  - intros d now cA oA txt u c o mx Hne.
    unfold load_officer_memory, add_manual_note. simpl.
    rewrite filter_app. simpl.
    destruct (note_of c o _) eqn:Hn.
    + apply note_of_true in Hn as [Ho Hc]. simpl in Ho, Hc. destruct Hne; congruence.
    + now rewrite app_nil_r.
  - intros d c o mx. unfold load_officer_memory, restrict_to_pair. simpl.
    rewrite join_restrict, filter_filter_imp by auto. reflexivity.
Qed.

(** C8: clearing the memory of a pair deletes exactly that pair's notes;
    missions, responses and the notes of every other pair are as before. *)
Theorem clear_officer_memory_frame (d : db) (channel_id : Z) (officer_id : pystr) :
  let d' := clear_officer_memory d channel_id officer_id in
  missions d' = missions d
  /\ responses d' = responses d
  /\ filter (note_of channel_id officer_id) (manual_notes d') = []
  /\ (forall n, In n (manual_notes d') <->
                In n (manual_notes d) /\ ~ (n_officer_id n = officer_id /\ n_channel_id n = channel_id))
  /\ (forall c o, (c, o) <> (channel_id, officer_id) ->
        filter (note_of c o) (manual_notes d') = filter (note_of c o) (manual_notes d)).
Proof.
  cbn zeta. unfold clear_officer_memory; simpl.
  split; [reflexivity |]. split; [reflexivity |]. split; [| split].
  - induction (manual_notes d) as [|n l IH]; simpl; [reflexivity |].
    destruct (note_of channel_id officer_id n) eqn:Hn; simpl; [exact IH | rewrite Hn; exact IH].
  - intros n. rewrite filter_In, <- note_of_true.
    destruct (note_of channel_id officer_id n); simpl; intuition congruence.
  - intros c o Hne. apply filter_filter_imp.
    intros n Hn. apply note_of_true in Hn as [Ho Hc].
    destruct (note_of channel_id officer_id n) eqn:Hm; [| reflexivity].
    apply note_of_true in Hm as [Ho' Hc']. exfalso. apply Hne. congruence.
Qed.

(** ** Officer queries *)

(** Case analysis on the [py] results threaded by [let!]. *)
Ltac py_split H :=
  unfold py_bind in H;
  repeat match type of H with
         | context [match ?c with Ok _ => _ | Raise _ => _ end] =>
             let E := fresh "E" in destruct c eqn:E; try discriminate
         end.

Lemma gather_map_ok {A B} (f : A -> py B) (l : list A) :
  (forall x, In x l -> exists y, f x = Ok y) ->
  exists ys, gather (map f l) = Ok ys /\ Forall2 (fun x y => f x = Ok y) l ys.
Proof.
  induction l as [|x l IH]; intros H; simpl.
  - exists []. auto.
  - destruct (H x (or_introl eq_refl)) as [y Hy].
    destruct IH as [ys [Hys Hall]]; [intros x' Hx'; apply H; now right |].
    exists (y :: ys). rewrite Hy, Hys. simpl. auto.
Qed.

Lemma Forall2_map_eq {A B} (P : A -> B -> Prop) (g : B -> A) (l : list A) (ys : list B) :
  Forall2 P l ys -> (forall x y, In x l -> P x y -> g y = x) -> map g ys = l.
Proof.
  induction 1 as [|x y l ys Hxy Hall IH]; intros H; simpl; [reflexivity |].
  rewrite (H x y (or_introl eq_refl) Hxy), IH; [reflexivity |].
  intros x' y' Hx'. apply H. now right.
Qed.

Lemma query_officer_try_ok post officer_id o payload r :
  query_officer_try post officer_id o payload = Ok r ->
  r_officer_id r = officer_id /\ r_success r = true.
Proof.
  unfold query_officer_try. intros H. py_split H. injection H as <-. auto.
Qed.

Lemma query_officer_result cfg load_mem post officer_id mission_brief channel_id o m z :
  lookup_officer cfg officer_id = Ok o -> get_officer_color o = Ok z ->
  load_memory_if load_mem channel_id officer_id = Ok m ->
  exists r, query_officer cfg load_mem post officer_id mission_brief channel_id = Ok r
  /\ r_officer_id r = officer_id
  /\ match query_officer_try post officer_id o (query_payload o mission_brief m) with
     | Ok r' => r = r' /\ r_success r = true
     | Raise e => r_success r = false /\ r_response r = JStr (s "Error: " ++ exn_msg e)
                  /\ r_color r = z
     end.
Proof.
  intros Ho Hz Hm. unfold query_officer. rewrite Ho. simpl. rewrite Hm. simpl.
  unfold py_try.
  destruct (query_officer_try post officer_id o (query_payload o mission_brief m)) as [r|e] eqn:Ht.
  - exists r. apply query_officer_try_ok in Ht as [Hid Hs]. auto.
  - unfold query_officer_except. rewrite Hz. simpl. eexists. repeat split; reflexivity.
Qed.

Lemma filter_officers_spec cfg capability_class :
  (forall officer_id, In officer_id (ACTIVE_ROSTER cfg) ->
     exists o, lookup_officer cfg officer_id = Ok o) ->
  filter_officers_by_capability cfg capability_class
  = Ok (resolved_officers_spec cfg capability_class).
Proof.
  intros H. unfold filter_officers_by_capability, resolved_officers_spec.
  destruct capability_class as [cc|]; [| reflexivity].
  destruct (opt_truthy (Some cc)); simpl; [| reflexivity].
  induction (ACTIVE_ROSTER cfg) as [|x l IH]; [reflexivity |].
  destruct (H x (or_introl eq_refl)) as [o Ho].
  simpl. rewrite Ho. simpl. rewrite IH by (intros y Hy; apply H; now right). simpl.
  unfold officer_matches. rewrite Ho. destruct (pystr_eqb _ _); reflexivity.
Qed.

(** C1: with every active officer in the roster (with a usable color)
    and a memory loader that returns, [query_all_officers] returns one
    result per resolved officer, in roster order, each the outcome of
    that officer's own query however many of them failed; no match gives
    the empty list. *)
Theorem query_all_officers_one_per_officer cfg load_mem post mission_brief
    capability_class channel_id :
  roster_ok cfg ->
  (forall c officer_id, exists m, load_mem c officer_id = Ok m) ->
  let ids := resolved_officers_spec cfg capability_class in
  filter_officers_by_capability cfg capability_class = Ok ids
  /\ exists rs, query_all_officers cfg load_mem post mission_brief capability_class channel_id = Ok rs
     /\ List.length rs = List.length ids
     /\ map r_officer_id rs = ids
     /\ Forall2 (fun officer_id r =>
                   query_officer cfg load_mem post officer_id mission_brief channel_id = Ok r)
                ids rs
     /\ (ids = [] -> rs = []).
Proof.
  intros Hroster Hload ids.
  assert (Hf : filter_officers_by_capability cfg capability_class = Ok ids).
  { apply filter_officers_spec. intros x Hx. destruct (Hroster x Hx) as [o [z [Ho _]]]. eauto. }
  split; [exact Hf |].
  assert (Hsub : forall x, In x ids -> In x (ACTIVE_ROSTER cfg)).
  { unfold ids, resolved_officers_spec. intros x Hx.
    destruct capability_class as [cc|]; [| exact Hx].
    destruct (opt_truthy (Some cc)); [apply filter_In in Hx; tauto | exact Hx]. }
  clearbody ids.
  assert (Hq : forall x, In x ids -> exists r,
             query_officer cfg load_mem post x mission_brief channel_id = Ok r
             /\ r_officer_id r = x).
  { intros x Hx. destruct (Hroster x (Hsub x Hx)) as [o [z [Ho Hz]]].
    assert (Hm : exists m, load_memory_if load_mem channel_id x = Ok m).
    { unfold load_memory_if. destruct channel_id as [c|]; [destruct (Z.eqb c 0)|]; eauto. }
    destruct Hm as [m Hm].
    destruct (query_officer_result cfg load_mem post x mission_brief channel_id o m z Ho Hz Hm)
      as [r [Hr [Hid _]]]. eauto. }
  destruct (gather_map_ok (fun x => query_officer cfg load_mem post x mission_brief channel_id) ids)
    as [rs [Hg Hall]].
  { intros x Hx. destruct (Hq x Hx) as [r [Hr _]]. eauto. }
  exists rs. unfold query_all_officers. rewrite Hf. simpl.
  assert (Hmap : map r_officer_id rs = ids).
  { apply (Forall2_map_eq _ _ _ _ Hall).
    intros x r Hx Hxr. destruct (Hq x Hx) as [r' [Hr' Hid]].
    rewrite Hxr in Hr'. injection Hr' as <-. exact Hid. }
  split; [destruct ids; [inversion Hall; reflexivity | exact Hg] |].
  split; [symmetry; exact (Forall2_length Hall) |].
  split; [exact Hmap |]. split; [exact Hall |].
  intros Hnil. rewrite Hnil in Hall. now inversion Hall.
Qed.

(** The content after the placeholder steps is always truthy. *)
Lemma research_content_truthy (c : json) (model : pystr) (disclaim : bool) :
  truthy (if disclaim
          then JStr (WEB_DISCLAIMER model ++ py_str (if truthy c then c else JStr EMPTY_PLACEHOLDER))
          else if truthy c then c else JStr EMPTY_PLACEHOLDER) = true.
Proof.
  destruct disclaim; [reflexivity |]. destruct (truthy c) eqn:Hc; [exact Hc | reflexivity].
Qed.

Lemma success_flag (c : json) (b : bool) :
  truthy c = true ->
  (if truthy c
   then match py_startswith c WARN with Ok w => Ok (negb w) | Raise e => Raise e end
   else Ok false) = Ok b ->
  exists t, c = JStr t /\ b = (negb (pystr_eqb t []) && negb (startswith t WARN)).
Proof.
  intros Ht H. rewrite Ht in H.
  destruct c as [| | | t | |]; try discriminate H.
  exists t. split; [reflexivity |]. injection H as <-. simpl in Ht. now rewrite Ht.
Qed.

Lemma research_try_ok post officer_id o role has_web_search web_search_requested payload r :
  research_try post officer_id o role has_web_search web_search_requested payload = Ok r ->
  r_officer_id r = officer_id /\ r_research_role r = Some role
  /\ exists t, r_response r = JStr t
     /\ r_success r = (negb (pystr_eqb t []) && negb (startswith t WARN)).
Proof.
  unfold research_try. intros H. py_split H.
  injection H as <-. cbn [r_officer_id r_research_role r_response r_success].
  split; [reflexivity |]. split; [reflexivity |].
  apply success_flag in E8; [| apply research_content_truthy].
  destruct E8 as [t [Hc Hb]]. exists t. split; [exact Hc | exact Hb].
Qed.

Lemma falsy_cases (v : json) :
  truthy v = false ->
  v = JNull \/ v = JBool false \/ v = JInt 0 \/ v = JStr [] \/ v = JList [] \/ v = JDict [].
Proof.
  destruct v as [|b|z|t|l|kv]; simpl; intros H.
  - auto.
  - subst b. auto.
  - apply negb_false_iff, Z.eqb_eq in H. subst z. auto 6.
  - apply negb_false_iff, pystr_eqb_eq in H. subst t. auto 6.
  - destruct l; [auto 6 | discriminate].
  - destruct kv; [auto 6 | discriminate].
Qed.

(** C10: a research-role result that leaves the [try] block normally
    is a success exactly when its text is non-empty and does not start
    with "⚠️"; so the empty-content and tool-call placeholders are
    failures, unless the web-search disclaimer (starting with "📚") was
    prepended, in which case the same placeholders are successes. *)
Theorem research_success_flag :
  (forall post officer_id o role has_web_search web_search_requested payload r,
     research_try post officer_id o role has_web_search web_search_requested payload = Ok r ->
     exists t, r_response r = JStr t
       /\ r_success r = (negb (pystr_eqb t []) && negb (startswith t WARN)))
  /\ (forall post officer_id o role has_web_search web_search_requested payload v z,
       post payload = Ok (mk_response 200 (Some (completion_body (JDict [(s "content", v)])))) ->
       truthy v = false -> get_officer_color o = Ok z ->
       exists r, research_try post officer_id o role has_web_search web_search_requested payload = Ok r
         /\ r_response r = JStr ((if web_search_requested && negb has_web_search
                                  then WEB_DISCLAIMER (o_model o) else []) ++ EMPTY_PLACEHOLDER)
         /\ r_success r = (web_search_requested && negb has_web_search))
  /\ (forall post officer_id o role has_web_search web_search_requested payload arguments z,
       post payload = Ok (mk_response 200 (Some (completion_body
         (JDict [(s "content", JNull);
                 (s "tool_calls", JList [JDict [(s "function",
                                                  JDict [(s "arguments", JStr arguments)])]])])))) ->
       get_officer_color o = Ok z ->
       exists r, research_try post officer_id o role has_web_search web_search_requested payload = Ok r
         /\ r_response r = JStr ((if web_search_requested && negb has_web_search
                                  then WEB_DISCLAIMER (o_model o) else [])
                                 ++ TOOL_CALL_PLACEHOLDER arguments)
         /\ r_success r = (web_search_requested && negb has_web_search)).
Proof.
  split; [| split].
  - intros post officer_id o role h w payload r H.
    apply research_try_ok in H as [_ [_ Ht]]. exact Ht.
  - intros post officer_id o role h w payload v z Hpost Hv Hz.
    unfold research_try. rewrite Hpost, Hz.
    apply falsy_cases in Hv.
    destruct w, h;
      (destruct Hv as [-> | [-> | [-> | [-> | [-> | ->]]]]];
       eexists; (split; [reflexivity | split; reflexivity])).
  - intros post officer_id o role h w payload args z Hpost Hz.
    unfold research_try. rewrite Hpost, Hz.
    destruct w, h; eexists; (split; [reflexivity | split; reflexivity]).
Qed.

Lemma research_role_result cfg load_mem post officer_id research_topic i channel_id
    use_web_search o z role instruction :
  lookup_officer cfg officer_id = Ok o -> get_officer_color o = Ok z ->
  RESEARCH_ROLES i = Ok (role, instruction) ->
  (exists m, load_memory_if load_mem channel_id officer_id = Ok m) ->
  exists r, query_officer_with_research_role cfg load_mem post officer_id research_topic i
              channel_id use_web_search = Ok r
  /\ r_officer_id r = officer_id /\ r_research_role r = Some role.
Proof.
  intros Ho Hz Hrole [m Hm]. unfold query_officer_with_research_role.
  rewrite Ho. simpl. rewrite Hrole. simpl. rewrite Hm. simpl. unfold py_try.
  match goal with |- exists r, match ?t with _ => _ end = _ /\ _ => destruct t as [r|e] eqn:Ht end.
  - apply research_try_ok in Ht as [Hid [Hrl _]]. eauto.
  - unfold research_except. rewrite Hz. simpl. eexists. repeat split.
Qed.

Definition research_role_names : list (option pystr) :=
  [Some (s "State-of-the-Art Researcher"); Some (s "Critical Analyst");
   Some (s "Optimistic Visionary"); Some (s "Historical Context Provider")].

(** C6: with every active officer in the roster (with a usable color)
    and a memory loader that returns, [query_research_council] raises a
    [ValueError] exactly when the filtered officer count is not 4; with
    4 officers it returns their results in order, the i-th officer with
    the i-th fixed research role. *)
Theorem query_research_council_four cfg load_mem post research_topic capability_class
    channel_id use_web_search :
  roster_ok cfg ->
  (forall c officer_id, exists m, load_mem c officer_id = Ok m) ->
  let ids := resolved_officers_spec cfg capability_class in
  ((exists e, query_research_council cfg load_mem post research_topic capability_class
                channel_id use_web_search = Raise e /\ exn_type e = ValueError)
   <-> List.length ids <> 4)
  /\ (List.length ids = 4 ->
      exists rs, query_research_council cfg load_mem post research_topic capability_class
                   channel_id use_web_search = Ok rs
      /\ map r_officer_id rs = ids
      /\ map r_research_role rs = research_role_names).
Proof.
  intros Hroster Hload ids.
  assert (Hf : filter_officers_by_capability cfg capability_class = Ok ids).
  { apply filter_officers_spec. intros x Hx. destruct (Hroster x Hx) as [o [z [Ho _]]]. eauto. }
  assert (Hsub : forall x, In x ids -> In x (ACTIVE_ROSTER cfg)).
  { unfold ids, resolved_officers_spec. intros x Hx.
    destruct capability_class as [cc|]; [| exact Hx].
    destruct (opt_truthy (Some cc)); [apply filter_In in Hx; tauto | exact Hx]. }
  clearbody ids.
  assert (H4 : List.length ids = 4 ->
      exists rs, query_research_council cfg load_mem post research_topic capability_class
                   channel_id use_web_search = Ok rs
      /\ map r_officer_id rs = ids
      /\ map r_research_role rs = research_role_names).
  { intros Hlen. unfold query_research_council. rewrite Hf. simpl. rewrite Hlen. simpl.
    destruct ids as [|a [|b [|c [|d [|x l]]]]]; try discriminate Hlen.
    assert (Hm : forall y, exists m, load_memory_if load_mem channel_id y = Ok m).
    { intros y. unfold load_memory_if. destruct channel_id as [ch|]; [destruct (Z.eqb ch 0)|]; eauto. }
    assert (Hq : forall y i role instruction, In y [a; b; c; d] ->
               RESEARCH_ROLES i = Ok (role, instruction) ->
               exists r, query_officer_with_research_role cfg load_mem post y research_topic i
                           channel_id use_web_search = Ok r
               /\ r_officer_id r = y /\ r_research_role r = Some role).
    { intros y i role instruction Hy Hi. destruct (Hroster y (Hsub y Hy)) as [o [z [Ho Hz]]].
      eapply research_role_result; eauto. }
    destruct (Hq a 0 _ _ (or_introl eq_refl) eq_refl) as [ra [Ha [Ha1 Ha2]]].
    destruct (Hq b 1 _ _ (or_intror (or_introl eq_refl)) eq_refl) as [rb [Hb [Hb1 Hb2]]].
    destruct (Hq c 2 _ _ (or_intror (or_intror (or_introl eq_refl))) eq_refl)
      as [rc [Hc [Hc1 Hc2]]].
    destruct (Hq d 3 _ _ (or_intror (or_intror (or_intror (or_introl eq_refl)))) eq_refl)
      as [rd [Hd [Hd1 Hd2]]].
    exists [ra; rb; rc; rd]. simpl. rewrite Ha, Hb, Hc, Hd. simpl.
    rewrite Ha1, Hb1, Hc1, Hd1, Ha2, Hb2, Hc2, Hd2. auto. }
  split; [| exact H4]. split.
  - intros [e [He Hty]] Hlen. destruct (H4 Hlen) as [rs [Hrs _]]. congruence.
  - intros Hlen. unfold query_research_council. rewrite Hf. simpl.
    apply Nat.eqb_neq in Hlen. rewrite Hlen. simpl. eexists. split; reflexivity.
Qed.

(** C2 (as amended): for an officer of the roster with a usable color,
    and when the memory load returns, [query_officer] returns a record:
    the one built in the [try] block (a success), or, when that block
    raises [e], a failure whose response text is "Error: " followed by
    [str(e)]. *)
Theorem query_officer_catches cfg load_mem post officer_id mission_brief channel_id o m z :
  lookup_officer cfg officer_id = Ok o -> get_officer_color o = Ok z ->
  load_memory_if load_mem channel_id officer_id = Ok m ->
  exists r, query_officer cfg load_mem post officer_id mission_brief channel_id = Ok r
  /\ r_officer_id r = officer_id
  /\ match query_officer_try post officer_id o (query_payload o mission_brief m) with
     | Ok r' => r = r' /\ r_success r = true
     | Raise e => r_success r = false /\ r_response r = JStr (s "Error: " ++ exn_msg e)
                  /\ r_color r = z
     end.
Proof. apply query_officer_result. Qed.

(** C2 counterexample: the officer lookup precedes the [try] block, so
    an identifier missing from [OFFICERS] makes [query_officer] raise
    [KeyError]. *)
Lemma query_officer_unknown_id_raises :
  query_officer demo_cfg no_memory (post_returns JNull) (s "O9") (s "Status report") None
  = Raise (mk_exn KeyError (quote (s "O9"))).
Proof. vm_compute. reflexivity. Qed.

(** C5: [query_officer] returns the provider's content as it is: an
    empty string or a [null] content next to a tool call is returned raw
    (tagged success), while the research-role sibling on the same
    response returns the empty-response placeholder. *)
Theorem query_officer_empty_content_raw :
  match query_officer demo_cfg no_memory
          (post_returns (completion_body (JDict [(s "content", JStr [])])))
          (s "O1") (s "Status report") None with
  | Ok r => r_response r = JStr [] /\ r_success r = true
  | Raise _ => False
  end
  /\ match query_officer demo_cfg no_memory
          (post_returns (completion_body
             (JDict [(s "content", JNull);
                     (s "tool_calls", JList [JDict [(s "function",
                        JDict [(s "arguments", JStr (s "{}"))])]])])))
          (s "O1") (s "Status report") None with
     | Ok r => r_response r = JNull /\ r_success r = true
     | Raise _ => False
     end
  /\ match query_officer_with_research_role demo_cfg no_memory
          (post_returns (completion_body (JDict [(s "content", JStr [])])))
          (s "O1") (s "Status report") 0 None false with
     | Ok r => r_response r = JStr EMPTY_PLACEHOLDER /\ r_success r = false
     | Raise _ => False
     end.
Proof. vm_compute. repeat split. Qed.

(** ** Concrete runs *)

Example demo_memory_O1_channel1 :
  load_officer_memory demo_db 1 (s "O1") 2000
  = NOTES_HEADER ++ s "- launch on Monday" ++ nl ++ s "- prefers short answers"
    ++ nl ++ nl ++ MISSIONS_HEADER
    ++ s "- Brief: Plan the launch... | Response: Ship it...".
Proof. vm_compute. reflexivity. Qed.

Example demo_memory_cleared :
  load_officer_memory (clear_officer_memory demo_db 1 (s "O1")) 1 (s "O1") 2000
  = MISSIONS_HEADER ++ s "- Brief: Plan the launch... | Response: Ship it...".
Proof. vm_compute. reflexivity. Qed.

Example demo_filter_case_insensitive :
  filter_officers_by_capability demo_cfg (Some (s "STRATEGIC"))
  = Ok [s "O1"; s "O2"; s "O3"; s "O4"].
Proof. vm_compute. reflexivity. Qed.

Lemma demo_roster_ok : roster_ok demo_cfg.
Proof.
  intros x Hx. simpl in Hx.
  destruct Hx as [<- | [<- | [<- | [<- | [<- | []]]]]]; do 2 eexists; split; reflexivity.
Qed.

Lemma no_memory_returns : forall c officer_id, exists m, no_memory c officer_id = Ok m.
Proof. intros c officer_id. exists []. reflexivity. Qed.

(** ** Witnesses *)

Lemma query_all_officers_one_per_officer_witness :
  exists rs, query_all_officers demo_cfg no_memory
               (post_raises (mk_exn TransportError (s "timed out")))
               (s "Status report") (Some (s "strategic")) (Some 42%Z)
             = Ok rs
  /\ map r_officer_id rs = [s "O1"; s "O2"; s "O3"; s "O4"].
Proof.
  destruct (query_all_officers_one_per_officer demo_cfg no_memory
              (post_raises (mk_exn TransportError (s "timed out")))
              (s "Status report") (Some (s "strategic")) (Some 42%Z)
              demo_roster_ok no_memory_returns) as [_ [rs [Hq [_ [Hids _]]]]].
  exists rs. split; [exact Hq | rewrite Hids; vm_compute; reflexivity].
Defined.

Lemma query_officer_catches_witness :
  exists r, query_officer demo_cfg no_memory
              (post_raises (mk_exn TransportError (s "timed out")))
              (s "O1") (s "Status report") None = Ok r
  /\ r_response r = JStr (s "Error: timed out").
Proof.
  destruct (query_officer_catches demo_cfg no_memory
              (post_raises (mk_exn TransportError (s "timed out")))
              (s "O1") (s "Status report") None
              (demo_officer (s "anthropic/claude-3-haiku") (s "Strategic")) [] 10181046%Z
              eq_refl eq_refl eq_refl) as [r [Hq [_ Hm]]].
  exists r. split; [exact Hq |]. destruct Hm as [_ [Hr _]]. rewrite Hr. reflexivity.
Defined.

Lemma send_embeds_in_batches_concat_witness :
  send_embeds_in_batches (@nil embed) (Some tt) = []
  /\ List.concat (map sent_embeds
       (send_embeds_in_batches [text_embed 3000; text_embed 3000] (Some tt)))
     = [text_embed 3000; text_embed 3000].
Proof.
  split.
  - apply (proj2 (send_embeds_in_batches_concat [] (Some tt))). reflexivity.
  - apply (proj1 (send_embeds_in_batches_concat _ (Some tt))).
Defined.

Lemma send_embeds_in_batches_size_witness :
  batch_size [text_embed 6000] <= MAX_EMBED_SIZE
  \/ exists e, [text_embed 6000] = [e] /\ MAX_EMBED_SIZE < calculate_embed_size e.
Proof.
  apply (send_embeds_in_batches_size [text_embed 10; text_embed 6000] (@None unit)).
  vm_compute. right. left. reflexivity.
Defined.

Lemma load_officer_memory_isolated_witness :
  load_officer_memory (fst (add_manual_note demo_db 30 1 (s "O1") (s "secret") 7))
    2 (s "O1") 2000
  = load_officer_memory demo_db 2 (s "O1") 2000.
Proof.
  apply (proj1 load_officer_memory_isolated). left. lia.
Defined.

Lemma clear_officer_memory_frame_witness :
  filter (note_of 1 (s "O2")) (manual_notes (clear_officer_memory demo_db 1 (s "O1")))
  = filter (note_of 1 (s "O2")) (manual_notes demo_db).
Proof.
  destruct (clear_officer_memory_frame demo_db 1 (s "O1")) as [_ [_ [_ [_ H]]]].
  apply H. intros Heq. injection Heq as Hs. discriminate Hs.
Defined.

Lemma query_research_council_four_witness :
  exists rs, query_research_council demo_cfg no_memory
               (post_raises (mk_exn TransportError (s "timed out")))
               (s "Edge inference") (Some (s "STRATEGIC")) None true = Ok rs
  /\ map r_research_role rs = research_role_names.
Proof.
  destruct (query_research_council_four demo_cfg no_memory
              (post_raises (mk_exn TransportError (s "timed out")))
              (s "Edge inference") (Some (s "STRATEGIC")) None true
              demo_roster_ok no_memory_returns) as [_ H4].
  destruct H4 as [rs [Hq [_ Hroles]]]; [vm_compute; reflexivity |].
  exists rs. auto.
Defined.

Lemma research_success_flag_witness :
  exists r, research_try (post_returns (completion_body (JDict [(s "content", JStr [])])))
              (s "O1") (demo_officer (s "anthropic/claude-3-haiku") (s "Strategic"))
              (s "Critical Analyst") false true JNull = Ok r
  /\ r_success r = true.
Proof.
  destruct (proj1 (proj2 research_success_flag)
              (post_returns (completion_body (JDict [(s "content", JStr [])])))
              (s "O1") (demo_officer (s "anthropic/claude-3-haiku") (s "Strategic"))
              (s "Critical Analyst") false true JNull (JStr []) 10181046%Z
              eq_refl eq_refl eq_refl) as [r [Hq [_ Hs]]].
  exists r. split; [exact Hq | exact Hs].
Defined.

(* ========================================================================= *)
(** * Further properties of the code *)

(** ** Batching: the view and the common one-message case *)

Lemma batch_loop_sent {V} (es : list embed) (sent : list (send V)) cb cs sent' cb' cs' :
  batch_loop es sent cb cs = (sent', cb', cs') ->
  Forall (fun m => sent_view m = None /\ sent_embeds m <> []) sent ->
  Forall (fun m => sent_view m = None /\ sent_embeds m <> []) sent'
  /\ (es <> [] \/ cb <> [] -> cb' <> []).
Proof.
  revert sent cb cs; induction es as [|e es IH]; intros sent cb cs Hl Hs; simpl in Hl.
  - injection Hl as <- <- <-. split; [exact Hs|]. intros [H|H]; [congruence|exact H].
  - destruct (Nat.ltb MAX_EMBED_SIZE (cs + calculate_embed_size e)
              && negb match cb with [] => true | _ => false end) eqn:C.
    + apply andb_true_iff in C as [_ C].
      edestruct IH as [H1 H2]; [exact Hl| |].
      * apply Forall_app. split; [exact Hs|]. constructor; [|constructor].
        simpl. split; [reflexivity|]. destruct cb; [discriminate C|discriminate].
      * split; [exact H1|]. intros _. apply H2. right. discriminate.
    + edestruct IH as [H1 H2]; [exact Hl|exact Hs|].
      split; [exact H1|]. intros _. apply H2. right.
      destruct cb; discriminate.
Qed.

Lemma batch_loop_fits {V} (es : list embed) cb :
  batch_size cb + batch_size es <= MAX_EMBED_SIZE ->
  batch_loop (V:=V) es [] cb (batch_size cb) = ([], cb ++ es, batch_size (cb ++ es)).
Proof.
  revert cb; induction es as [|e es IH]; intros cb H; simpl.
  - now rewrite app_nil_r.
  - simpl in H.
    replace (Nat.ltb MAX_EMBED_SIZE (batch_size cb + calculate_embed_size e)) with false
      by (symmetry; apply Nat.ltb_ge; lia).
    simpl. replace (batch_size cb + calculate_embed_size e) with (batch_size (cb ++ [e]))
      by (rewrite batch_size_app; simpl; lia).
    rewrite IH by (rewrite batch_size_app; simpl; lia).
    now rewrite <- app_assoc.
Qed.

(** X1: the view is attached to the last message only, and every
    message sent carries at least one embed. *)
Theorem send_embeds_in_batches_view_last {V} (embeds : list embed) (view : option V) :
  embeds <> [] ->
  exists firsts last,
    send_embeds_in_batches embeds view = firsts ++ [last]
    /\ sent_view last = view
    /\ Forall (fun m => sent_view m = None) firsts
    /\ Forall (fun m => sent_embeds m <> []) (firsts ++ [last]).
Proof.
  intros Hne. unfold send_embeds_in_batches.
  destruct (batch_loop embeds [] [] 0) as [[sent cb] cs] eqn:E.
  destruct (batch_loop_sent embeds [] [] 0 sent cb cs E (Forall_nil _)) as [H1 H2].
  destruct cb as [|e cb]; [exfalso; apply (H2 (or_introl Hne)); reflexivity|].
  exists sent, (mk_send (e :: cb) view). split; [reflexivity|]. split; [reflexivity|].
  split.
  - eapply Forall_impl; [|exact H1]. intros m [Hm _]. exact Hm.
  - apply Forall_app. split.
    + eapply Forall_impl; [|exact H1]. intros m [_ Hm]. exact Hm.
    + constructor; [discriminate|constructor].
Qed.

(** X2: embeds whose sizes total at most [MAX_EMBED_SIZE] go out as one
    message holding all of them, with the view. *)
Theorem send_embeds_in_batches_single {V} (embeds : list embed) (view : option V) :
  embeds <> [] -> batch_size embeds <= MAX_EMBED_SIZE ->
  send_embeds_in_batches embeds view = [mk_send embeds view].
Proof.
  intros Hne Hle. unfold send_embeds_in_batches.
  pose proof (batch_loop_fits (V:=V) embeds [] Hle) as E. simpl in E. rewrite E.
  destruct embeds; [congruence|reflexivity].
Qed.

(** ** Loading memory: emptiness, failed responses, length *)

Lemma pystr_eqb_refl (a : pystr) : pystr_eqb a a = true.
Proof. apply pystr_eqb_eq. reflexivity. Qed.

Lemma pystr_eqb_sym (a b : pystr) : pystr_eqb a b = pystr_eqb b a.
Proof.
  destruct (pystr_eqb a b) eqn:H1, (pystr_eqb b a) eqn:H2; try reflexivity.
  - apply pystr_eqb_eq in H1. subst. rewrite pystr_eqb_refl in H2. discriminate.
  - apply pystr_eqb_eq in H2. subst. rewrite pystr_eqb_refl in H1. discriminate.
Qed.

Lemma filter_nil_iff {A} (P : A -> bool) (l : list A) :
  filter P l = [] <-> forall x, In x l -> P x = false.
Proof.
  induction l as [|x l IH]; simpl; [split; [contradiction|reflexivity]|].
  destruct (P x) eqn:Hp; split.
  - discriminate.
  - intros H. rewrite (H x (or_introl eq_refl)) in Hp. discriminate.
  - intros H y [<-|Hy]; [exact Hp|]. apply IH; assumption.
  - intros H. apply IH. intros y Hy. apply H. right. exact Hy.
Qed.

Lemma insert_by_length {A} (le : A -> A -> bool) x l :
  List.length (insert_by le x l) = S (List.length l).
Proof.
  induction l as [|y l IH]; simpl; [reflexivity|]. destruct (le x y); simpl; congruence.
Qed.

Lemma sort_by_length {A} (le : A -> A -> bool) l : List.length (sort_by le l) = List.length l.
Proof. induction l as [|x l IH]; simpl; [reflexivity|]. now rewrite insert_by_length, IH. Qed.

Lemma sort_by_nil {A} (le : A -> A -> bool) l : sort_by le l = [] <-> l = [].
Proof.
  split; [|intros ->; reflexivity].
  intros H. apply (f_equal (@List.length A)) in H. rewrite sort_by_length in H.
  destruct l; [reflexivity|discriminate].
Qed.

Lemma firstn_S_nil {A} k (l : list A) : firstn (S k) l = [] <-> l = [].
Proof. destruct l; simpl; split; congruence. Qed.

Lemma in_join_missions r m rs ms :
  In (r, m) (join_missions rs ms) <-> In r rs /\ In m ms /\ m_id m = mr_mission_id r.
Proof.
  unfold join_missions. rewrite in_flat_map. split.
  - intros [r' [Hr Hin]]. apply in_map_iff in Hin as [m' [Heq Hm]]. injection Heq as <- <-.
    apply filter_In in Hm as [Hm Hid]. apply Z.eqb_eq in Hid. auto.
  - intros [Hr [Hm Hid]]. exists r. split; [exact Hr|]. apply in_map_iff. exists m.
    split; [reflexivity|]. apply filter_In. split; [exact Hm|]. apply Z.eqb_eq. exact Hid.
Qed.

Lemma join_nil_iff sep (ws : list pystr) :
  Forall (fun w => w <> []) ws -> join sep ws = [] <-> ws = [].
Proof.
  intros H. split; [|intros ->; reflexivity].
  destruct H as [|w ws Hw _]; [reflexivity|]. intros E. exfalso. apply Hw.
  destruct ws as [|w' ws']; simpl in E; [exact E|]. destruct w; [reflexivity|discriminate].
Qed.

(** The text [load_officer_memory] builds before the truncation. *)
Lemma load_officer_memory_unfold d c o max :
  let notes := firstn 10 (sort_by note_order (filter (note_of c o) (manual_notes d))) in
  let md := firstn 5 (sort_by mission_order
              (filter (mission_row_of c o) (join_missions (responses d) (missions d)))) in
  let full := join (nl ++ nl)
    ((match notes with [] => [] | _ => [NOTES_HEADER ++ join nl (map note_line notes)] end)
     ++ (match md with [] => [] | _ => [MISSIONS_HEADER ++ join nl (map mission_line md)] end)) in
  load_officer_memory d c o max
  = if Nat.ltb max (Nat.div (List.length full) 4) then slice_to (max * 4) full else full.
Proof. reflexivity. Qed.

Lemma load_officer_memory_nil_iff d c o max :
  0 < max ->
  load_officer_memory d c o max = []
  <-> filter (note_of c o) (manual_notes d) = []
      /\ filter (mission_row_of c o) (join_missions (responses d) (missions d)) = [].
Proof.
  intros Hmax. rewrite load_officer_memory_unfold.
  set (N := filter (note_of c o) (manual_notes d)).
  set (J := filter (mission_row_of c o) (join_missions (responses d) (missions d))).
  cbv zeta.
  set (parts := (match firstn 10 (sort_by note_order N) with
      | [] => [] | _ => [NOTES_HEADER ++ join nl (map note_line (firstn 10 (sort_by note_order N)))] end)
     ++ (match firstn 5 (sort_by mission_order J) with
         | [] => [] | _ => [MISSIONS_HEADER ++ join nl (map mission_line (firstn 5 (sort_by mission_order J)))] end)).
  assert (Hparts : Forall (fun w => w <> []) parts).
  { unfold parts. apply Forall_app. split.
    - destruct (firstn 10 _); constructor; [discriminate|constructor].
    - destruct (firstn 5 _); constructor; [discriminate|constructor]. }
  assert (Hfull : join (nl ++ nl) parts = [] <-> N = [] /\ J = []).
  { rewrite (join_nil_iff _ _ Hparts). unfold parts.
    rewrite <- (sort_by_nil note_order N), <- (sort_by_nil mission_order J),
      <- (firstn_S_nil 9 (sort_by note_order N)), <- (firstn_S_nil 4 (sort_by mission_order J)).
    destruct (firstn 10 _), (firstn 5 _); simpl; split; intros; try discriminate;
      try (destruct H; discriminate); auto. }
  rewrite <- Hfull.
  destruct (Nat.ltb max _); [|reflexivity].
  unfold slice_to. destruct (join (nl ++ nl) parts) as [|x w]; [destruct (max * 4); reflexivity|].
  replace (max * 4) with (S (max * 4 - 1)) by lia. simpl. split; discriminate.
Qed.

(** X3: with a positive [max_tokens], the loaded memory is empty
    exactly when the pair has no note and the officer no successful
    response to a mission of the channel. *)
Theorem load_officer_memory_empty_iff (d : db) (channel_id : Z) (officer_id : pystr)
    (max_tokens : nat) :
  0 < max_tokens ->
  load_officer_memory d channel_id officer_id max_tokens = []
  <-> (forall n, In n (manual_notes d) ->
         ~ (n_officer_id n = officer_id /\ n_channel_id n = channel_id))
      /\ (forall r m, In r (responses d) -> In m (missions d) ->
            m_id m = mr_mission_id r -> mr_officer_id r = officer_id ->
            mr_success r = true -> m_channel_id m <> channel_id).
Proof.
  intros Hmax. rewrite (load_officer_memory_nil_iff d channel_id officer_id max_tokens Hmax).
  rewrite !filter_nil_iff. split.
  - intros [HN HJ]. split.
    + intros n Hn Hc. apply note_of_true in Hc. rewrite (HN n Hn) in Hc. discriminate.
    + intros r m Hr Hm Hid Ho Hs Hc.
      assert (Hin : In (r, m) (join_missions (responses d) (missions d)))
        by (apply in_join_missions; auto).
      specialize (HJ _ Hin). unfold mission_row_of in HJ. simpl in HJ.
      rewrite Ho, Hc, Hs, pystr_eqb_refl, Z.eqb_refl in HJ. discriminate.
  - intros [HN HJ]. split.
    + intros n Hn. destruct (note_of channel_id officer_id n) eqn:E; [|reflexivity].
      apply note_of_true in E. exfalso. exact (HN n Hn E).
    + intros [r m] Hin. apply in_join_missions in Hin as [Hr [Hm Hid]].
      unfold mission_row_of. simpl.
      destruct (pystr_eqb (mr_officer_id r) officer_id) eqn:Ho; [|reflexivity].
      destruct (Z.eqb (m_channel_id m) channel_id) eqn:Hc; [|reflexivity].
      destruct (mr_success r) eqn:Hs; [|reflexivity].
      apply pystr_eqb_eq in Ho. apply Z.eqb_eq in Hc. exfalso. exact (HJ r m Hr Hm Hid Ho Hs Hc).
Qed.

Lemma join_failed_ignored c o rs ms :
  filter (mission_row_of c o) (join_missions (filter mr_success rs) ms)
  = filter (mission_row_of c o) (join_missions rs ms).
Proof.
  unfold join_missions. induction rs as [|r rs IH]; simpl; [reflexivity|].
  destruct (mr_success r) eqn:Hs; simpl; rewrite ?filter_app, IH; [reflexivity|].
  rewrite filter_map_none; [reflexivity|].
  intros m. unfold mission_row_of. simpl. rewrite Hs, andb_false_r. reflexivity.
Qed.

(** X4: failed responses never reach the loaded memory: the text is the
    same once every response with [success = False] is removed. *)
Theorem load_officer_memory_ignores_failures (d : db) (channel_id : Z) (officer_id : pystr)
    (max_tokens : nat) :
  load_officer_memory d channel_id officer_id max_tokens
  = load_officer_memory (mk_db (manual_notes d) (missions d)
                          (filter mr_success (responses d)) (next_note_id d))
      channel_id officer_id max_tokens.
Proof. unfold load_officer_memory. simpl. now rewrite join_failed_ignored. Qed.


(** ** Notes: the round trip through [add_manual_note], and the counts *)

Lemma sort_by_last_max {A} (le : A -> A -> bool) (l : list A) (x : A) :
  (forall y, In y l -> le y x = false) ->
  exists rest, sort_by le (l ++ [x]) = x :: rest.
Proof.
  induction l as [|y l IH]; intros H; simpl.
  - exists []. reflexivity.
  - destruct IH as [rest E]; [intros z Hz; apply H; right; exact Hz|].
    rewrite E. simpl. rewrite (H y (or_introl eq_refl)).
    exists (insert_by le y rest). reflexivity.
Qed.

Lemma join_cons_startswith sep (a : pystr) ws : startswith (join sep (a :: ws)) a = true.
Proof.
  apply startswith_spec. destruct ws as [|w ws].
  - exists []. simpl. now rewrite app_nil_r.
  - exists (sep ++ join sep (w :: ws)). reflexivity.
Qed.

Lemma startswith_join_head sep (a : pystr) ws p :
  startswith a p = true -> startswith (join sep (a :: ws)) p = true.
Proof.
  intros H. apply startswith_spec in H as [u ->]. apply startswith_spec.
  destruct ws as [|w ws].
  - exists u. reflexivity.
  - exists (u ++ sep ++ join sep (w :: ws)). simpl. now rewrite <- app_assoc.
Qed.

Lemma startswith_app_r (w p q : pystr) : startswith w (p ++ q) = true -> startswith w p = true.
Proof.
  rewrite !startswith_spec. intros [v ->]. exists (q ++ v). now rewrite app_assoc.
Qed.

Lemma startswith_app (p v q : pystr) : startswith q p = true -> startswith (q ++ v) p = true.
Proof. rewrite !startswith_spec. intros [u ->]. exists (u ++ v). now rewrite app_assoc. Qed.

Lemma startswith_slice (w p : pystr) (n : nat) :
  startswith w p = true -> List.length p <= n -> startswith (slice_to n w) p = true.
Proof.
  rewrite !startswith_spec. intros [v ->] Hn. unfold slice_to.
  rewrite firstn_app, firstn_all2 by exact Hn. eexists. reflexivity.
Qed.

(** A memory text starting with [p] keeps it when [p] fits the budget. *)
Lemma load_startswith d c o max (p : pystr) :
  List.length p <= max * 4 ->
  (let notes := firstn 10 (sort_by note_order (filter (note_of c o) (manual_notes d))) in
   let md := firstn 5 (sort_by mission_order
              (filter (mission_row_of c o) (join_missions (responses d) (missions d)))) in
   startswith (join (nl ++ nl)
    ((match notes with [] => [] | _ => [NOTES_HEADER ++ join nl (map note_line notes)] end)
     ++ (match md with [] => [] | _ => [MISSIONS_HEADER ++ join nl (map mission_line md)] end)))
    p = true) ->
  startswith (load_officer_memory d c o max) p = true.
Proof.
  intros Hp H. rewrite load_officer_memory_unfold. cbv zeta in *.
  destruct (Nat.ltb _ _); [apply startswith_slice|]; assumption.
Qed.

(** X6: after [add_manual_note], when the pair's earlier notes are
    unpinned and older, the memory loaded for the pair begins with the
    new note (as long as the header and the note fit in
    [4 * max_tokens] characters). *)
Theorem add_manual_note_then_load (d : db) (now channel_id : Z)
    (officer_id note_content : pystr) (created_by_user_id : Z) (max_tokens : nat) :
  (forall n, In n (manual_notes d) -> n_officer_id n = officer_id ->
     n_channel_id n = channel_id -> n_is_pinned n = false /\ (n_created_at n < now)%Z) ->
  List.length (NOTES_HEADER ++ s "- " ++ note_content) <= max_tokens * 4 ->
  startswith
    (load_officer_memory (fst (add_manual_note d now channel_id officer_id note_content
                                 created_by_user_id)) channel_id officer_id max_tokens)
    (NOTES_HEADER ++ s "- " ++ note_content) = true.
Proof.
  intros Hold Hlen. apply load_startswith; [exact Hlen|]. cbv zeta.
  set (x := mk_note (next_note_id d) officer_id channel_id note_content created_by_user_id
              now now false).
  change (manual_notes (fst (add_manual_note d now channel_id officer_id note_content
            created_by_user_id))) with (manual_notes d ++ [x]).
  rewrite filter_app. cbn [filter].
  replace (note_of channel_id officer_id x) with true
    by (symmetry; apply note_of_true; split; reflexivity).
  destruct (sort_by_last_max note_order (filter (note_of channel_id officer_id)
              (manual_notes d)) x) as [rest E].
  { intros y Hy. apply filter_In in Hy as [Hy Ho]. apply note_of_true in Ho as [Ho Hc].
    destruct (Hold y Hy Ho Hc) as [Hp Ht]. unfold note_order. simpl. rewrite Hp. simpl.
    apply Z.leb_gt. exact Ht. }
  rewrite E. change (firstn 10 (x :: rest)) with (x :: firstn 9 rest).
  cbv beta iota. apply startswith_join_head.
  pose proof (join_cons_startswith nl (note_line x) (map note_line (firstn 9 rest))) as J.
  apply startswith_spec in J as [v J]. cbn [map]. rewrite J.
  apply startswith_spec. exists v. unfold note_line. cbn [n_note_content x].
  now rewrite !app_assoc.
Qed.


(** X7: [add_manual_note] raises the note count of its own (officer,
    channel) pair by one in [get_channel_stats] and changes no other
    count. *)
Theorem get_channel_stats_after_add (d : db) (now channel_id : Z)
    (officer_id note_content : pystr) (created_by_user_id stats_channel : Z) :
  get_channel_stats (fst (add_manual_note d now channel_id officer_id note_content
                            created_by_user_id)) stats_channel
  = map (fun entry => let '(off_id, (notes, missions)) := entry in
           (off_id, (if pystr_eqb off_id officer_id && Z.eqb channel_id stats_channel
                     then S notes else notes, missions)))
        (get_channel_stats d stats_channel).
Proof.
  unfold get_channel_stats. rewrite map_map. apply map_ext. intros off_id. cbn.
  rewrite filter_app, length_app. cbn. unfold note_of at 2. cbn.
  rewrite (pystr_eqb_sym officer_id off_id).
  destruct (pystr_eqb off_id officer_id && Z.eqb channel_id stats_channel); cbn;
    f_equal; f_equal; lia.
Qed.

(** X8: clearing a pair's memory sets that pair's note count to zero in
    [get_channel_stats] and leaves every other count, and every mission
    count, as it was. *)
Theorem get_channel_stats_after_clear (d : db) (channel_id : Z) (officer_id : pystr)
    (stats_channel : Z) :
  get_channel_stats (clear_officer_memory d channel_id officer_id) stats_channel
  = map (fun entry => let '(off_id, (notes, missions)) := entry in
           (off_id, (if pystr_eqb off_id officer_id && Z.eqb channel_id stats_channel
                     then 0 else notes, missions)))
        (get_channel_stats d stats_channel).
Proof.
  unfold get_channel_stats. rewrite map_map. apply map_ext. intros off_id. cbn.
  destruct (pystr_eqb off_id officer_id && Z.eqb channel_id stats_channel) eqn:E.
  - apply andb_true_iff in E as [E1 E2]. apply pystr_eqb_eq in E1. apply Z.eqb_eq in E2.
    subst. do 2 f_equal. apply length_zero_iff_nil, filter_nil_iff.
    intros n Hn. apply filter_In in Hn as [_ Hn].
    destruct (note_of stats_channel officer_id n); [discriminate|reflexivity].
  - rewrite filter_filter_imp; [reflexivity|].
    intros n Hn. apply note_of_true in Hn as [H1 H2].
    destruct (note_of channel_id officer_id n) eqn:Hc; [|reflexivity].
    apply note_of_true in Hc as [H3 H4]. subst.
    rewrite pystr_eqb_refl, Z.eqb_refl in E. discriminate.
Qed.

(** ** Saving missions *)

Lemma all_some_map {A} (l : list A) : all_some (map Some l) = Some l.
Proof. induction l as [|x l IH]; simpl; [reflexivity|]. now rewrite IH. Qed.

Lemma response_rows_ok mission_id next_id now rs rows :
  response_rows mission_id next_id now rs = Ok rows ->
  forall rs', all_some rows = Some rs' ->
  Forall2 (saved_row mission_id now) rs rs'
  /\ map mr_id rs' = map (fun i => (next_id + Z.of_nat i)%Z) (seq 0 (List.length rs)).
Proof.
  revert next_id rows; induction rs as [|r rs IH]; intros next_id rows H rs' Hs; simpl in H.
  - injection H as <-. injection Hs as <-. split; constructor.
  - py_split H. injection H as <-. rename a into sl, a0 into rows0.
    destruct sl as [[t n]|]; [|discriminate Hs].
    simpl in Hs. destruct (all_some rows0) as [rs0|] eqn:Hs0; [|discriminate Hs].
    injection Hs as <-. destruct (IH _ _ E0 rs0 Hs0) as [HF Hid].
    split.
    + constructor; [|exact HF].
      unfold response_slice in E.
      destruct (r_response r) eqn:Er; try discriminate E.
      injection E as <- <-. unfold saved_row. simpl.
      repeat split; try reflexivity. exists t0. auto.
    + simpl. rewrite Z.add_0_r. f_equal. rewrite Hid, <- seq_shift, map_map.
      apply map_ext. intros i. lia.
Qed.

Lemma response_rows_str mission_id next_id now rs :
  Forall (fun r => exists t, r_response r = JStr t) rs ->
  exists rs', response_rows mission_id next_id now rs = Ok (map Some rs').
Proof.
  intros H. revert next_id; induction H as [|r rs [t Ht] _ IH]; intros next_id; simpl.
  - exists []. reflexivity.
  - destruct (IH (next_id + 1)%Z) as [rs' E]. rewrite Ht. simpl. rewrite E. simpl.
    eexists (_ :: rs'). reflexivity.
Qed.

Lemma saved_rows_officers mission_id now rs rows :
  Forall2 (saved_row mission_id now) rs rows -> map mr_officer_id rows = map r_officer_id rs.
Proof.
  induction 1 as [|r row rs rows Hr _ IH]; simpl; [reflexivity|].
  destruct Hr as [_ [Ho _]]. now rewrite Ho, IH.
Qed.

Lemma Forall2_length' {A B} (R : A -> B -> Prop) l1 l2 :
  Forall2 R l1 l2 -> List.length l2 = List.length l1.
Proof. induction 1; simpl; congruence. Qed.

(** What a successful [save_mission_rows] writes. *)
Lemma save_mission_rows_effect st channel_id mission_brief user_id cc results meta now st' mid :
  save_mission_rows st channel_id mission_brief user_id cc results meta now = Ok (st', mid) ->
  mid = next_mission_id st
  /\ missions (st_db st') = missions (st_db st)
       ++ [mk_mission mid channel_id (slice_to 1000 mission_brief) now (Some now) cc user_id
             (Some meta)]
  /\ (exists rows, responses (st_db st') = responses (st_db st) ++ rows
        /\ Forall2 (saved_row mid now) results rows
        /\ map mr_id rows
           = map (fun i => (next_response_id st + Z.of_nat i)%Z) (seq 0 (List.length results)))
  /\ manual_notes (st_db st') = manual_notes (st_db st)
  /\ next_note_id (st_db st') = next_note_id (st_db st)
  /\ channels st' = channels st /\ officers st' = officers st
  /\ next_mission_id st' = (mid + 1)%Z
  /\ next_response_id st' = (next_response_id st + Z.of_nat (List.length results))%Z.
Proof.
  unfold save_mission_rows. intros H.
  destruct (has_channel st channel_id); [|discriminate H]. simpl in H.
  destruct (varchar 50 _); [|discriminate H]. simpl in H.
  destruct (response_rows _ _ _ _) as [rows|] eqn:Er; [|discriminate H]. simpl in H.
  unfold commit_responses in H.
  destruct (all_some rows) as [rs|] eqn:Ea; [|discriminate H].
  destruct (forallb _ rs); [|discriminate H]. simpl in H.
  injection H as <- <-. destruct (response_rows_ok _ _ _ _ _ Er rs Ea) as [HF Hid].
  repeat split; try reflexivity.
  - exists rs. auto.
  - simpl. f_equal. f_equal. exact (Forall2_length' _ _ _ HF).
Qed.

Lemma save_mission_rows_ok_iff st channel_id mission_brief user_id cc results meta now :
  (exists st' mid, save_mission_rows st channel_id mission_brief user_id cc results meta now
                   = Ok (st', mid))
  <-> has_channel st channel_id = true
      /\ (forall c, cc = Some c -> List.length c <= 50)
      /\ Forall (fun r => exists t, r_response r = JStr t) results
      /\ Forall (fun r => has_officer st (r_officer_id r) = true) results.
Proof.
  unfold save_mission_rows. split.
  - intros [st' [mid H]].
    destruct (has_channel st channel_id); [|discriminate H]. simpl in H.
    destruct (varchar 50 _) eqn:Ev; [|discriminate H]. simpl in H.
    destruct (response_rows _ _ _ _) as [rows|] eqn:Er; [|discriminate H]. simpl in H.
    unfold commit_responses in H.
    destruct (all_some rows) as [rs|] eqn:Ea; [|discriminate H].
    destruct (forallb _ rs) eqn:Ef; [|discriminate H].
    destruct (response_rows_ok _ _ _ _ _ Er rs Ea) as [HF _].
    split; [reflexivity|]. split; [|split].
    + intros c ->. unfold varchar in Ev. destruct (Nat.leb _ 50) eqn:El; [|discriminate Ev].
      apply Nat.leb_le. exact El.
    + clear -HF. induction HF as [|r row rs rows Hr _ IH]; constructor; [|exact IH].
      destruct Hr as [_ [_ [[t [Ht _]] _]]]. eauto.
    + pose proof (proj1 (forallb_forall _ rs) Ef) as Ef'. apply Forall_forall. intros r Hr.
      assert (Hin : In (r_officer_id r) (map mr_officer_id rs)).
      { rewrite (saved_rows_officers _ _ _ _ HF). apply in_map. exact Hr. }
      apply in_map_iff in Hin as [row [Ho Hrow]]. rewrite <- Ho. apply Ef'. exact Hrow.
  - intros [Hc [Hcc [Hstr Hoff]]]. rewrite Hc. simpl.
    replace (varchar 50 (match cc with Some c => c | None => [] end)) with (Ok tt).
    2:{ unfold varchar. destruct cc as [c|]; simpl; [|reflexivity].
        rewrite (proj2 (Nat.leb_le _ _) (Hcc c eq_refl)). reflexivity. }
    simpl. destruct (response_rows_str (next_mission_id st) (next_response_id st) now results Hstr)
      as [rs Er].
    rewrite Er. simpl. unfold commit_responses. rewrite all_some_map.
    destruct (response_rows_ok _ _ _ _ _ Er rs (all_some_map rs)) as [HF _].
    replace (forallb (fun r => has_officer st (mr_officer_id r)) rs) with true.
    + eexists. eexists. reflexivity.
    + symmetry. apply forallb_forall. intros row Hrow.
      assert (Hin : In (mr_officer_id row) (map r_officer_id results)).
      { rewrite <- (saved_rows_officers _ _ _ _ HF). apply in_map. exact Hrow. }
      apply in_map_iff in Hin as [r [Ho Hr]]. rewrite <- Ho.
      rewrite Forall_forall in Hoff. apply Hoff. exact Hr.
Qed.


(** X10: a successful [save_mission] appends one mission row (the brief
    cut to 1000 characters, the id taken from the sequence and returned)
    and one response row per result, in order, each cut to 2000
    characters with [tokens_used = len(response) // 4]; notes, channels
    and officers are untouched. *)
Theorem save_mission_effect (st : store) (channel_id : Z) (mission_brief : pystr) (user_id : Z)
    (capability_class_filter : option pystr) (officer_responses : list result) (now : Z)
    (st' : store) (mission_id : Z) :
  save_mission st channel_id mission_brief user_id capability_class_filter officer_responses now
  = Ok (st', mission_id) ->
  mission_id = next_mission_id st
  /\ missions (st_db st') = missions (st_db st)
       ++ [mk_mission mission_id channel_id (slice_to 1000 mission_brief) now (Some now)
             capability_class_filter user_id (Some (JDict []))]
  /\ (exists rows, responses (st_db st') = responses (st_db st) ++ rows
        /\ Forall2 (saved_row mission_id now) officer_responses rows
        /\ map mr_id rows = map (fun i => (next_response_id st + Z.of_nat i)%Z)
                              (seq 0 (List.length officer_responses)))
  /\ manual_notes (st_db st') = manual_notes (st_db st)
  /\ channels st' = channels st /\ officers st' = officers st.
Proof.
  intros H. destruct (save_mission_rows_effect _ _ _ _ _ _ _ _ _ _ H)
    as [H1 [H2 [H3 [H4 [_ [H6 [H7 _]]]]]]].
  auto 7.
Qed.

Lemma response_rows_none mission_id next_id now before after r :
  Forall (fun r => exists t, r_response r = JStr t) before -> r_response r = JNull ->
  exists msg, response_rows mission_id next_id now (before ++ r :: after)
              = Raise (mk_exn TypeError msg).
Proof.
  intros Hb Hr. revert next_id.
  induction Hb as [|x before [t Ht] _ IH]; intros k; simpl.
  - rewrite Hr. simpl. eexists. reflexivity.
  - rewrite Ht. simpl. destruct (IH (k + 1)%Z) as [m E]. rewrite E. simpl.
    eexists. reflexivity.
Qed.

(** X11: [save_mission] fails with [TypeError] when a result's response
    is [None] (what [query_officer] returns for a tool-call answer) and
    every result before it holds a [str], provided the mission row
    itself could be written. *)
Theorem save_mission_none_response (st : store) (channel_id : Z) (mission_brief : pystr)
    (user_id : Z) (capability_class_filter : option pystr) (before after : list result)
    (r : result) (now : Z) :
  has_channel st channel_id = true ->
  (forall c, capability_class_filter = Some c -> List.length c <= 50) ->
  Forall (fun r => exists t, r_response r = JStr t) before ->
  r_response r = JNull ->
  exists msg, save_mission st channel_id mission_brief user_id capability_class_filter
                (before ++ r :: after) now = Raise (mk_exn TypeError msg).
Proof.
  intros Hc Hcc Hb Hr. unfold save_mission, save_mission_rows. rewrite Hc. simpl.
  replace (varchar 50 (match capability_class_filter with Some c => c | None => [] end))
    with (Ok tt).
  2:{ unfold varchar. destruct capability_class_filter as [c|]; simpl; [|reflexivity].
      rewrite (proj2 (Nat.leb_le _ _) (Hcc c eq_refl)). reflexivity. }
  simpl. destruct (response_rows_none (next_mission_id st) (next_response_id st) now
                      before after r Hb Hr) as [m E].
  rewrite E. eexists. reflexivity.
Qed.


Lemma join_missions_app rs1 rs2 ms :
  join_missions (rs1 ++ rs2) ms = join_missions rs1 ms ++ join_missions rs2 ms.
Proof. unfold join_missions. apply flat_map_app. Qed.

Lemma join_missions_fresh rs ms m :
  (forall r, In r rs -> mr_mission_id r <> m_id m) ->
  join_missions rs (ms ++ [m]) = join_missions rs ms.
Proof.
  intros H. unfold join_missions. induction rs as [|r rs IH]; simpl; [reflexivity|].
  rewrite filter_app. simpl.
  replace (Z.eqb (m_id m) (mr_mission_id r)) with false
    by (symmetry; apply Z.eqb_neq; intros E; apply (H r (or_introl eq_refl)); congruence).
  rewrite app_nil_r, IH; [reflexivity|]. intros r' Hr'. apply H. right. exact Hr'.
Qed.

Lemma join_missions_new rows ms m :
  (forall m', In m' ms -> m_id m' <> m_id m) ->
  (forall r, In r rows -> mr_mission_id r = m_id m) ->
  join_missions rows (ms ++ [m]) = map (fun row => (row, m)) rows.
Proof.
  intros Hms Hr. unfold join_missions. induction rows as [|r rows IH]; simpl; [reflexivity|].
  rewrite filter_app. simpl. rewrite (Hr r (or_introl eq_refl)), Z.eqb_refl.
  replace (filter (fun m0 => Z.eqb (m_id m0) (m_id m)) ms) with (@nil mission_history).
  - simpl. f_equal. apply IH. intros r' H'. apply Hr. right. exact H'.
  - symmetry. apply filter_nil_iff. intros m' Hm'. apply Z.eqb_neq. apply Hms. exact Hm'.
Qed.

Lemma filter_map_pair (P : mission_officer_response * mission_history -> bool) m rows :
  filter P (map (fun row => (row, m)) rows) = map (fun row => (row, m)) (filter (fun row => P (row, m)) rows).
Proof. induction rows as [|r rows IH]; simpl; [reflexivity|]. destruct (P (r, m)); simpl; congruence. Qed.

Lemma saved_rows_filter mid now o results rows :
  Forall2 (saved_row mid now) results rows ->
  Forall2 (saved_row mid now)
    (filter (fun x => pystr_eqb (r_officer_id x) o && r_success x) results)
    (filter (fun row => pystr_eqb (mr_officer_id row) o && mr_success row) rows).
Proof.
  induction 1 as [|r row rs rows Hr _ IH]; simpl; [constructor|].
  pose proof Hr as [_ [Ho [_ [Hs _]]]]. rewrite Ho, Hs.
  destruct (pystr_eqb (r_officer_id r) o && r_success r); [constructor|]; assumption.
Qed.

Lemma filter_andb {A} (P Q : A -> bool) l :
  filter (fun y => P y && Q y) l = filter Q (filter P l).
Proof.
  induction l as [|y l IH]; simpl; [reflexivity|].
  destruct (P y) eqn:Hp, (Q y) eqn:Hq; simpl; rewrite ?Hq, ?IH; reflexivity.
Qed.

Lemma saved_rows_mission mid now rs rows :
  Forall2 (saved_row mid now) rs rows -> forall row, In row rows -> mr_mission_id row = mid.
Proof.
  induction 1 as [|r row0 rs rows Hr _ IH]; intros row Hin; [destruct Hin|].
  destruct Hin as [<-|Hin]; [exact (proj1 Hr)|auto].
Qed.

Lemma Forall2_single {A B} (R : A -> B -> Prop) x l :
  Forall2 R [x] l -> exists y, l = [y] /\ R x y.
Proof. intros H. inversion H as [|? y ? ? Hr Hn]. inversion Hn. subst. eauto. Qed.

(** X12: after [save_mission] stores a successful answer of an officer,
    the officer's memory in that channel begins with the line for that
    mission: its brief cut to 100 characters and the response cut to
    200 (when the pair has no notes, the earlier missions started
    before, the ids already used lie below the sequence, the officer
    answered once, and the line fits in [4 * max_tokens] characters). *)
Theorem save_mission_then_load (st : store) (channel_id : Z) (mission_brief : pystr)
    (user_id : Z) (capability_class_filter : option pystr) (officer_responses : list result)
    (now : Z) (st' : store) (mission_id : Z) (r : result) (t : pystr) (max_tokens : nat) :
  save_mission st channel_id mission_brief user_id capability_class_filter officer_responses now
  = Ok (st', mission_id) ->
  (forall m, In m (missions (st_db st)) ->
     (m_id m < next_mission_id st)%Z /\ (m_started_at m < now)%Z) ->
  (forall row, In row (responses (st_db st)) -> (mr_mission_id row < next_mission_id st)%Z) ->
  filter (fun x => pystr_eqb (r_officer_id x) (r_officer_id r)) officer_responses = [r] ->
  r_success r = true -> r_response r = JStr t ->
  filter (note_of channel_id (r_officer_id r)) (manual_notes (st_db st)) = [] ->
  List.length (MISSIONS_HEADER ++ s "- Brief: " ++ slice_to 100 mission_brief
               ++ s "... | Response: " ++ slice_to 200 t ++ s "...") <= max_tokens * 4 ->
  startswith (load_officer_memory (st_db st') channel_id (r_officer_id r) max_tokens)
    (MISSIONS_HEADER ++ s "- Brief: " ++ slice_to 100 mission_brief
     ++ s "... | Response: " ++ slice_to 200 t ++ s "...") = true.
Proof.
  intros Hsave Hms Hrs Hone Hsucc Ht Hnotes Hlen.
  destruct (save_mission_rows_effect _ _ _ _ _ _ _ _ _ _ Hsave)
    as [-> [Hm [[rows [Hr [HF _]]] [Hn _]]]].
  set (o := r_officer_id r) in *.
  set (m := mk_mission (next_mission_id st) channel_id (slice_to 1000 mission_brief) now
              (Some now) capability_class_filter user_id (Some (JDict []))) in Hm.
  apply load_startswith; [exact Hlen|]. cbv zeta.
  rewrite Hn, Hnotes, Hm, Hr, join_missions_app.
  rewrite join_missions_fresh.
  2:{ intros row Hrow. specialize (Hrs row Hrow). simpl. lia. }
  rewrite join_missions_new.
  2:{ intros m' Hm'. specialize (Hms m' Hm'). simpl. lia. }
  2:{ intros row Hrow. exact (saved_rows_mission _ _ _ _ HF row Hrow). }
  rewrite filter_app, filter_map_pair.
  rewrite (filter_ext (fun row => mission_row_of channel_id o (row, m))
             (fun row => pystr_eqb (mr_officer_id row) o && mr_success row)).
  2:{ intros row. unfold mission_row_of. simpl. now rewrite Z.eqb_refl, andb_true_r. }
  pose proof (saved_rows_filter _ _ o _ _ HF) as HF1.
  rewrite filter_andb, Hone in HF1. simpl in HF1. rewrite Hsucc in HF1.
  destruct (Forall2_single _ _ _ HF1) as [row [Hrow Hsr]]. rewrite Hrow.
  destruct Hsr as [_ [_ [[t' [Ht' [Hc _]]] _]]]. rewrite Ht in Ht'. injection Ht' as <-.
  destruct (sort_by_last_max mission_order
              (filter (mission_row_of channel_id o)
                 (join_missions (responses (st_db st)) (missions (st_db st)))) (row, m))
    as [rest E].
  { intros [r0 m0] Hy. apply filter_In in Hy as [Hy _].
    apply in_join_missions in Hy as [_ [Hm0 _]]. destruct (Hms m0 Hm0) as [_ Hlt].
    unfold mission_order. simpl. apply Z.leb_gt. exact Hlt. }
  simpl (map _ [row]). rewrite E.
  change (firstn 10 (sort_by note_order [])) with (@nil manual_note).
  change (firstn 5 ((row, m) :: rest)) with ((row, m) :: firstn 4 rest).
  cbv beta iota. rewrite app_nil_l. apply startswith_join_head.
  pose proof (join_cons_startswith nl (mission_line (row, m)) (map mission_line (firstn 4 rest)))
    as J.
  apply startswith_spec in J as [v J]. cbn [map]. rewrite J.
  apply startswith_spec. exists v. unfold mission_line. cbn [fst snd m_mission_brief m].
  rewrite Hc. unfold slice_to. rewrite !firstn_firstn. simpl (Nat.min _ _).
  now rewrite !app_assoc.
Qed.

(** ** Channels and the officer roster *)

Lemma has_channel_snoc st c row :
  existsb (fun x => Z.eqb (ch_channel_id x) c) (channels st ++ [row])
  = has_channel st c || Z.eqb (ch_channel_id row) c.
Proof. unfold has_channel. rewrite existsb_app. simpl. now rewrite orb_false_r. Qed.

Lemma varchar_ok n v : varchar n v = Ok tt <-> List.length v <= n.
Proof.
  unfold varchar. destruct (Nat.leb (List.length v) n) eqn:E.
  - apply Nat.leb_le in E. split; auto.
  - apply Nat.leb_gt in E. split; [discriminate|lia].
Qed.


(** What a successful [ensure_channel_exists] leaves. *)
Lemma ensure_channel_exists_ok st channel_id channel_name guild_id now st' :
  ensure_channel_exists st channel_id channel_name guild_id now = Ok st' ->
  has_channel st' channel_id = true /\ st_db st' = st_db st
  /\ officers st' = officers st
  /\ next_mission_id st' = next_mission_id st /\ next_response_id st' = next_response_id st
  /\ (has_channel st channel_id = true -> st' = st)
  /\ (has_channel st channel_id = false ->
      channels st' = channels st ++ [mk_channel channel_id channel_name guild_id now now]).
Proof.
  unfold ensure_channel_exists. destruct (has_channel st channel_id) eqn:H.
  - intros E. injection E as <-. repeat split; auto. discriminate.
  - destruct (varchar 255 channel_name); [|discriminate]. simpl. intros E. injection E as <-.
    repeat split; try reflexivity; try discriminate.
    unfold has_channel. simpl. rewrite has_channel_snoc, Z.eqb_refl, orb_true_r. reflexivity.
Qed.

Lemma ensure_channel_exists_present st channel_id channel_name guild_id now :
  List.length channel_name <= 255 ->
  exists st', ensure_channel_exists st channel_id channel_name guild_id now = Ok st'.
Proof.
  intros H. unfold ensure_channel_exists. destruct (has_channel st channel_id); [eauto|].
  rewrite (proj2 (varchar_ok _ _) H). simpl. eauto.
Qed.

(** X13: after [ensure_channel_exists] the channel is present; an
    existing channel is left as it is (its name is never overwritten),
    a missing one is appended, nothing else changes, and a second call
    for the same id is a no-op whatever name it passes. *)
Theorem ensure_channel_exists_idempotent (st : store) (channel_id : Z) (channel_name : pystr)
    (guild_id now : Z) (st' : store) :
  ensure_channel_exists st channel_id channel_name guild_id now = Ok st' ->
  has_channel st' channel_id = true
  /\ (has_channel st channel_id = true -> st' = st)
  /\ (has_channel st channel_id = false ->
      channels st' = channels st ++ [mk_channel channel_id channel_name guild_id now now])
  /\ st_db st' = st_db st /\ officers st' = officers st
  /\ (forall channel_name' guild_id' now',
        ensure_channel_exists st' channel_id channel_name' guild_id' now' = Ok st').
Proof.
  intros H. destruct (ensure_channel_exists_ok _ _ _ _ _ _ H)
    as [Hp [Hdb [Hoff [_ [_ [Hsame Hnew]]]]]].
  repeat split; auto.
  intros n' g' t'. unfold ensure_channel_exists. rewrite Hp. reflexivity.
Qed.



Lemma seed_one_spec now rows officer_id o rows' :
  seed_one now rows officer_id o = Ok rows' ->
  (forall r, In r rows -> or_officer_id r <> officer_id -> In r rows')
  /\ (exists r, In r rows' /\ officer_row_of officer_id o r)
  /\ (forall k, existsb (fun r => pystr_eqb (or_officer_id r) k) rows'
                = existsb (fun r => pystr_eqb (or_officer_id r) k) rows
                  || pystr_eqb officer_id k).
Proof.
  unfold seed_one. intros H.
  destruct (o_capability_class o) as [cls|] eqn:Hc; [|discriminate H]. simpl in H.
  destruct (varchar 10 _); [|discriminate H]. simpl in H.
  destruct (varchar 100 (o_title o)); [|discriminate H]. simpl in H.
  destruct (varchar 100 (o_model o)); [|discriminate H]. simpl in H.
  destruct (varchar 50 cls); [|discriminate H]. simpl in H.
  destruct (varchar 100 (o_specialty o)); [|discriminate H]. simpl in H.
  destruct (existsb (fun r => pystr_eqb (or_officer_id r) officer_id) rows) eqn:Hex;
    injection H as <-.
  - split; [|split].
    + intros r Hr Hne. apply in_map_iff. exists r. split; [|exact Hr].
      destruct (pystr_eqb (or_officer_id r) officer_id) eqn:E; [|reflexivity].
      apply pystr_eqb_eq in E. contradiction.
    + apply existsb_exists in Hex as [r [Hr Hid]]. apply pystr_eqb_eq in Hid.
      eexists. split; [apply in_map_iff; exists r; split; [|exact Hr]; reflexivity|].
      rewrite <- Hid, pystr_eqb_refl. unfold officer_row_of. simpl. auto 7.
    + intros k.
      assert (Hm : forall (rs : list officer_row),
        existsb (fun r => pystr_eqb (or_officer_id r) k)
          (map (fun r => if pystr_eqb (or_officer_id r) officer_id
                         then mk_officer_row (or_officer_id r) (o_title o) (o_model o) cls
                                (o_specialty o) (o_system_prompt o) (or_created_at r)
                         else r) rs)
        = existsb (fun r => pystr_eqb (or_officer_id r) k) rs).
      { induction rs as [|r rs IHr]; simpl; [reflexivity|].
        destruct (pystr_eqb (or_officer_id r) officer_id); simpl; now rewrite IHr. }
      rewrite Hm. destruct (pystr_eqb officer_id k) eqn:Ek; [|now rewrite orb_false_r].
      apply pystr_eqb_eq in Ek. subst k. rewrite Hex. reflexivity.
  - split; [|split].
    + intros r Hr _. apply in_or_app. left. exact Hr.
    + eexists. split; [apply in_or_app; right; left; reflexivity|].
      unfold officer_row_of. simpl. auto 7.
    + intros k. rewrite existsb_app. simpl. now rewrite orb_false_r.
Qed.

Lemma seed_loop_spec now rows dict rows' :
  NoDup (map fst dict) -> seed_loop now rows dict = Ok rows' ->
  (forall r, In r rows -> ~ In (or_officer_id r) (map fst dict) -> In r rows')
  /\ (forall officer_id o, In (officer_id, o) dict ->
        exists r, In r rows' /\ officer_row_of officer_id o r)
  /\ (forall k, existsb (fun r => pystr_eqb (or_officer_id r) k) rows'
                = existsb (fun r => pystr_eqb (or_officer_id r) k) rows
                  || existsb (fun k' => pystr_eqb k' k) (map fst dict)).
Proof.
  revert rows; induction dict as [|[officer_id o] rest IH]; intros rows Hnd H; simpl in H.
  - injection H as <-. split; [|split]; simpl; auto.
    + intros ? ? [] ; contradiction.
    + intros k. now rewrite orb_false_r.
  - simpl in Hnd. inversion Hnd as [|? ? Hnin Hnd']; subst.
    destruct (seed_one now rows officer_id o) as [rows1|] eqn:E1; [|discriminate H].
    simpl in H. destruct (seed_one_spec _ _ _ _ _ E1) as [K1 [[r1 [Hr1 Hf1]] X1]].
    destruct (IH rows1 Hnd' H) as [K2 [F2 X2]].
    split; [|split].
    + intros r Hr Hnot. apply K2; [apply K1; [exact Hr|]|]; intros Heq; apply Hnot;
        simpl; [left; auto|right; exact Heq].
    + intros k o' [Heq|Hin].
      * injection Heq as <- <-. exists r1. split; [|exact Hf1]. apply K2; [exact Hr1|].
        destruct Hf1 as [-> _]. exact Hnin.
      * apply F2. exact Hin.
    + intros k. rewrite X2, X1. simpl. now rewrite orb_assoc.
Qed.

(** X15: [seed_officers] is an upsert: every roster entry ends up with a
    row holding its fields, officers missing from the roster keep their
    rows, and the set of officer ids afterwards is the old set together
    with the roster's ids; the other tables are untouched. *)
Theorem seed_officers_upsert (st : store) (officers_dict : list (pystr * officer)) (now : Z)
    (st' : store) :
  NoDup (map fst officers_dict) ->
  seed_officers st officers_dict now = Ok st' ->
  (forall r, In r (officers st) -> ~ In (or_officer_id r) (map fst officers_dict) ->
     In r (officers st'))
  /\ (forall officer_id o, In (officer_id, o) officers_dict ->
        exists r, In r (officers st') /\ officer_row_of officer_id o r)
  /\ (forall k, has_officer st' k
                = has_officer st k || existsb (fun k' => pystr_eqb k' k) (map fst officers_dict))
  /\ st_db st' = st_db st /\ channels st' = channels st.
Proof.
  intros Hnd H. unfold seed_officers in H.
  destruct (seed_loop now (officers st) officers_dict) as [rows|] eqn:E; [|discriminate H].
  simpl in H. injection H as <-.
  destruct (seed_loop_spec _ _ _ _ Hnd E) as [K [F X]].
  repeat split; auto.
Qed.

(** ** Filtering, the provider hint and the channel test *)

Lemma lookup_officer_raise cfg officer_id e :
  lookup_officer cfg officer_id = Raise e -> exn_type e = KeyError.
Proof.
  unfold lookup_officer. destruct (find _ _) as [[? ?]|]; [discriminate|].
  intros H. injection H as <-. reflexivity.
Qed.

Lemma keep_matching_raises cfg cl ids :
  ((exists e, keep_matching cfg cl ids = Raise e)
   <-> Exists (fun officer_id => officer_known cfg officer_id = false) ids)
  /\ (forall e, keep_matching cfg cl ids = Raise e -> exn_type e = KeyError).
Proof.
  induction ids as [|officer_id rest [IH1 IH2]]; simpl.
  - split; [split; [intros [e H]; discriminate H|intros H; inversion H]|discriminate].
  - assert (Hk : officer_known cfg officer_id = false <-> exists e, lookup_officer cfg officer_id = Raise e).
    { unfold officer_known. destruct (lookup_officer cfg officer_id); split; intros H;
        try discriminate H; eauto. destruct H as [e H]. discriminate H. }
    unfold py_bind.
    destruct (lookup_officer cfg officer_id) as [o|e0] eqn:El.
    + destruct (keep_matching cfg cl rest) as [kept|e1] eqn:Ek.
      * split.
        -- split.
           ++ intros [e H]. exfalso.
              destruct (pystr_eqb (lower (capability_class_or [] o)) cl); discriminate H.
           ++ intros H. inversion H as [? ? Hx|? ? Hx]; subst.
              ** apply Hk in Hx as [e He]. discriminate He.
              ** apply IH1 in Hx as [e He]. discriminate He.
        -- intros e H. exfalso.
           destruct (pystr_eqb (lower (capability_class_or [] o)) cl); discriminate H.
      * split.
        -- split; [intros _; apply Exists_cons_tl; apply IH1; eauto|eauto].
        -- intros e H. injection H as <-. apply IH2. reflexivity.
    + split.
      * split; [intros _; apply Exists_cons_hd; apply Hk; eauto|eauto].
      * intros e H. injection H as <-. exact (lookup_officer_raise _ _ _ El).
Qed.

(** X16: with a non-empty class filter, [filter_officers_by_capability]
    raises exactly when some active-roster id is missing from OFFICERS,
    and what it raises is a [KeyError]. *)
Theorem filter_officers_by_capability_raises (cfg : config) (capability_class : pystr) :
  capability_class <> [] ->
  ((exists e, filter_officers_by_capability cfg (Some capability_class) = Raise e)
   <-> Exists (fun officer_id => officer_known cfg officer_id = false) (ACTIVE_ROSTER cfg))
  /\ (forall e, filter_officers_by_capability cfg (Some capability_class) = Raise e ->
        exn_type e = KeyError).
Proof.
  intros Hne. unfold filter_officers_by_capability.
  replace (negb (opt_truthy (Some capability_class))) with false.
  - apply keep_matching_raises.
  - simpl. destruct capability_class; [congruence|reflexivity].
Qed.

(** X17: the research payload carries the [provider] hint exactly when
    web search was requested and the lower-cased model name contains
    "google" and "gemini" but not "perplexity". *)
Theorem research_payload_provider (model system_content user_prompt : pystr)
    (use_web_search : bool) :
  json_has_key (research_payload model system_content user_prompt
                  (use_web_search && model_supports_web_search model)) (s "provider")
  = use_web_search && negb (str_in (s "perplexity") (lower model))
    && str_in (s "google") (lower model) && str_in (s "gemini") (lower model).
Proof.
  unfold research_payload, model_supports_web_search.
  destruct use_web_search, (str_in (s "perplexity") (lower model)),
    (str_in (s "google") (lower model)), (str_in (s "gemini") (lower model));
    reflexivity.
Qed.

(** X18: without a channel id, or with channel id 0 (falsy), neither
    query function consults the memory loader: any two loaders give the
    same result. *)
Theorem queries_without_channel_skip_memory (cfg : config)
    (load_mem1 load_mem2 : Z -> pystr -> py pystr) (post : json -> py http_response)
    (officer_id text : pystr) (channel_id : option Z) :
  channel_id = None \/ channel_id = Some 0%Z ->
  query_officer cfg load_mem1 post officer_id text channel_id
  = query_officer cfg load_mem2 post officer_id text channel_id
  /\ (forall role_index use_web_search,
        query_officer_with_research_role cfg load_mem1 post officer_id text role_index
          channel_id use_web_search
        = query_officer_with_research_role cfg load_mem2 post officer_id text role_index
            channel_id use_web_search).
Proof.
  intros [-> | ->]; split; try reflexivity; intros; reflexivity.
Qed.

(** ** The commands *)

(** X19: the [/memory] command changes the store only for a complete
    [add] (officer id and note both non-empty, officer known), and then
    exactly as [add_manual_note]; [stats], [view], [clear] (which only
    asks for a confirmation) and every refused request leave it as it
    was. *)
Theorem memory_command_frame (cfg : config) (d : db) (channel_id : Z) (channel_name : pystr)
    (user_id now : Z) (action : pystr) (officer_id note : option pystr) (d' : db) (rep : reply) :
  memory_command cfg d channel_id channel_name user_id now action officer_id note = Ok (d', rep) ->
  d' = d
  \/ (action = s "add"
      /\ exists oid text, officer_id = Some oid /\ note = Some text /\ oid <> [] /\ text <> []
           /\ officer_known cfg oid = true
           /\ d' = fst (add_manual_note d now channel_id oid text user_id)
           /\ rep = RText (NOTE_ADDED oid)).
Proof.
  unfold memory_command. intros H.
  destruct (pystr_eqb action (s "stats")) eqn:Hst; [injection H as <- _; left; reflexivity|].
  destruct (pystr_eqb action (s "view")) eqn:Hv.
  { left. destruct officer_id as [oid|]; [|injection H as <- _; reflexivity].
    destruct (negb (opt_truthy (Some oid))); [injection H as <- _; reflexivity|].
    destruct (lookup_officer cfg oid) as [o|e]; [|injection H as <- _; reflexivity].
    unfold py_bind in H. destruct (get_officer_color o); [|discriminate H].
    injection H as <- _; reflexivity. }
  destruct (pystr_eqb action (s "add")) eqn:Ha.
  { destruct officer_id as [oid|], note as [text|]; try (injection H as <- _; left; reflexivity).
    destruct (negb (opt_truthy (Some oid)) || negb (opt_truthy (Some text))) eqn:Ht;
      [injection H as <- _; left; reflexivity|].
    destruct (negb (officer_known cfg oid)) eqn:Hk; [injection H as <- _; left; reflexivity|].
    destruct (add_manual_note d now channel_id oid text user_id) as [d1 b] eqn:Eadd.
    injection H as <- <-. right. split; [apply pystr_eqb_eq; exact Ha|].
    apply orb_false_iff in Ht as [Ht1 Ht2]. simpl in Ht1, Ht2.
    apply negb_false_iff in Ht1, Ht2. apply negb_true_iff in Ht1, Ht2.
    exists oid, text. repeat split; try reflexivity.
    - intros ->. discriminate Ht1.
    - intros ->. discriminate Ht2.
    - apply negb_false_iff. exact Hk.
    - rewrite Eadd. reflexivity. }
  destruct (pystr_eqb action (s "clear")) eqn:Hc.
  { left. destruct officer_id as [oid|]; [|injection H as <- _; reflexivity].
    destruct (negb (opt_truthy (Some oid))); [injection H as <- _; reflexivity|].
    destruct (negb (officer_known cfg oid)); injection H as <- _; reflexivity. }
  injection H as <- _. left. reflexivity.
Qed.

(** X20: a [/mission] whose class filter matches no officer still
    records a mission row (with no response rows) before it answers
    "No officers found". *)
Theorem mission_command_no_officers (cfg : config) (post : json -> py http_response)
    (st : store) (channel_id : Z) (channel_name : pystr) (guild_id user_id : Z)
    (display_name brief : pystr) (capability_class : option pystr) (now : Z) :
  filter_officers_by_capability cfg capability_class = Ok [] ->
  List.length channel_name <= 255 ->
  (forall c, capability_class = Some c -> List.length c <= 50) ->
  exists st',
    mission_command cfg post st channel_id channel_name guild_id user_id display_name brief
      capability_class now = Ok (st', CText (NO_OFFICERS capability_class))
    /\ missions (st_db st') = missions (st_db st)
         ++ [mk_mission (next_mission_id st) channel_id (slice_to 1000 brief) now (Some now)
               capability_class user_id (Some (JDict []))]
    /\ responses (st_db st') = responses (st_db st)
    /\ manual_notes (st_db st') = manual_notes (st_db st).
Proof.
  intros Hf Hname Hcc.
  destruct (ensure_channel_exists_present st channel_id channel_name guild_id now Hname)
    as [st1 E1].
  destruct (ensure_channel_exists_ok _ _ _ _ _ _ E1) as [Hp [Hdb [_ [Hmid _]]]].
  destruct (proj2 (save_mission_rows_ok_iff st1 channel_id brief user_id capability_class []
                     (JDict []) now))
    as [st2 [mid E2]]; [repeat split; auto|].
  destruct (save_mission_rows_effect _ _ _ _ _ _ _ _ _ _ E2)
    as [-> [Hm [[rows [Hr [HF _]]] [Hn _]]]].
  inversion HF; subst rows.
  exists st2. unfold mission_command. rewrite E1. cbn [py_bind].
  unfold query_all_officers. rewrite Hf. cbn [py_bind].
  unfold save_mission. rewrite E2. cbn [py_bind fst].
  split; [reflexivity|]. rewrite Hm, Hr, Hn, Hdb, Hmid, app_nil_r. auto.
Qed.



(** ** Witnesses of the further properties *)

Lemma send_embeds_in_batches_view_last_witness :
  exists firsts last,
    send_embeds_in_batches [text_embed 3000; text_embed 3000] (Some tt) = firsts ++ [last]
    /\ sent_view last = Some tt /\ Forall (fun m => sent_view m = None) firsts.
Proof.
  destruct (send_embeds_in_batches_view_last [text_embed 3000; text_embed 3000] (Some tt))
    as [firsts [last [H1 [H2 [H3 _]]]]]; [discriminate|].
  exists firsts, last. auto.
Defined.

Lemma send_embeds_in_batches_single_witness :
  send_embeds_in_batches [text_embed 10; text_embed 20] (Some tt)
  = [mk_send [text_embed 10; text_embed 20] (Some tt)].
Proof.
  apply send_embeds_in_batches_single; [discriminate | apply Nat.leb_le; vm_compute; reflexivity].
Defined.

Lemma load_officer_memory_empty_iff_witness :
  load_officer_memory demo_db 3 (s "O1") 2000 = [].
Proof.
  apply (load_officer_memory_empty_iff demo_db 3 (s "O1") 2000); [lia | split].
  - intros n Hin [_ Hc]. vm_compute in Hin.
    repeat destruct Hin as [<-|Hin]; try contradiction; vm_compute in Hc; discriminate Hc.
  - intros r m _ Hm _ _ _. vm_compute in Hm.
    repeat destruct Hm as [<-|Hm]; try contradiction; vm_compute; discriminate.
Defined.

Lemma add_manual_note_then_load_witness :
  startswith
    (load_officer_memory (fst (add_manual_note demo_db 30 1 (s "O2") (s "hold the line") 7))
       1 (s "O2") 2000)
    (NOTES_HEADER ++ s "- " ++ s "hold the line") = true.
Proof.
  apply add_manual_note_then_load.
  - intros n Hin Ho _. vm_compute in Hin.
    repeat destruct Hin as [<-|Hin]; try contradiction; vm_compute in Ho;
      try discriminate Ho; split; reflexivity.
  - apply Nat.leb_le. vm_compute. reflexivity.
Defined.

Lemma save_mission_effect_witness :
  exists st' mission_id,
    save_mission demo_store 1 (s "Plan the launch") 7 None
      [demo_result (s "O1") (JStr (s "Ship it"))] 30 = Ok (st', mission_id)
    /\ mission_id = next_mission_id demo_store
    /\ manual_notes (st_db st') = manual_notes (st_db demo_store).
Proof.
  destruct (save_mission demo_store 1 (s "Plan the launch") 7 None
              [demo_result (s "O1") (JStr (s "Ship it"))] 30) as [[st' mid]|e] eqn:E;
    [|vm_compute in E; discriminate E].
  destruct (save_mission_effect _ _ _ _ _ _ _ _ _ E) as [Hid [_ [_ [Hn _]]]].
  exists st', mid. auto.
Defined.

Lemma save_mission_none_response_witness :
  exists msg, save_mission demo_store 1 (s "Plan the launch") 7 None
                ([demo_result (s "O1") (JStr (s "Ship it"))] ++ demo_result (s "O2") JNull :: [])
                30 = Raise (mk_exn TypeError msg).
Proof.
  apply save_mission_none_response.
  - vm_compute. reflexivity.
  - intros c Hc. discriminate Hc.
  - constructor; [exists (s "Ship it"); reflexivity | constructor].
  - reflexivity.
Defined.

Lemma save_mission_then_load_witness :
  exists st' mission_id,
    save_mission demo_store 1 (s "Plan the launch") 7 None
      [demo_result (s "O1") (JStr (s "Ship it")); demo_result (s "O3") (JStr (s "Go"))] 30
    = Ok (st', mission_id)
    /\ startswith (load_officer_memory (st_db st') 1 (s "O3") 2000)
         (MISSIONS_HEADER ++ s "- Brief: " ++ slice_to 100 (s "Plan the launch")
          ++ s "... | Response: " ++ slice_to 200 (s "Go") ++ s "...") = true.
Proof.
  destruct (save_mission demo_store 1 (s "Plan the launch") 7 None
              [demo_result (s "O1") (JStr (s "Ship it")); demo_result (s "O3") (JStr (s "Go"))]
              30) as [[st' mid]|e] eqn:E;
    [|vm_compute in E; discriminate E].
  exists st', mid. split; [reflexivity|].
  apply (save_mission_then_load _ _ _ _ _ _ _ _ _ (demo_result (s "O3") (JStr (s "Go")))
           (s "Go") 2000 E).
  - intros m Hin. vm_compute in Hin.
    repeat destruct Hin as [<-|Hin]; try contradiction; split; reflexivity.
  - intros row Hin. vm_compute in Hin.
    repeat destruct Hin as [<-|Hin]; try contradiction; reflexivity.
  - vm_compute. reflexivity.
  - reflexivity.
  - reflexivity.
  - vm_compute. reflexivity.
  - apply Nat.leb_le. vm_compute. reflexivity.
Defined.

Lemma ensure_channel_exists_idempotent_witness :
  exists st', ensure_channel_exists demo_store 2 (s "ops") 9 30 = Ok st'
  /\ has_channel st' 2 = true
  /\ ensure_channel_exists st' 2 (s "renamed") 9 31 = Ok st'.
Proof.
  destruct (ensure_channel_exists demo_store 2 (s "ops") 9 30) as [st'|e] eqn:E;
    [|vm_compute in E; discriminate E].
  destruct (ensure_channel_exists_idempotent _ _ _ _ _ _ E) as [Hp [_ [_ [_ [_ Hi]]]]].
  exists st'. auto.
Defined.

Lemma seed_officers_upsert_witness :
  exists st', seed_officers demo_store (OFFICERS demo_cfg) 30 = Ok st'
  /\ has_officer st' (s "O5") = true.
Proof.
  destruct (seed_officers demo_store (OFFICERS demo_cfg) 30) as [st'|e] eqn:E;
    [|vm_compute in E; discriminate E].
  assert (Hnd : NoDup (map fst (OFFICERS demo_cfg))).
  { vm_compute. repeat constructor; vm_compute; intros Hin;
      repeat destruct Hin as [Hin|Hin]; try discriminate Hin; contradiction. }
  destruct (seed_officers_upsert _ _ _ _ Hnd E) as [_ [_ [Hk _]]].
  exists st'. split; [reflexivity|]. rewrite Hk. apply orb_true_iff. right. vm_compute.
  reflexivity.
Defined.

Lemma filter_officers_by_capability_raises_witness :
  exists e, filter_officers_by_capability (mk_config (OFFICERS demo_cfg) [s "O1"; s "O9"])
              (Some (s "strategic")) = Raise e /\ exn_type e = KeyError.
Proof.
  destruct (filter_officers_by_capability_raises (mk_config (OFFICERS demo_cfg) [s "O1"; s "O9"])
              (s "strategic")) as [Hiff Hk]; [discriminate|].
  destruct (proj2 Hiff) as [e He].
  - apply Exists_cons_tl, Exists_cons_hd. vm_compute. reflexivity.
  - exists e. split; [exact He | exact (Hk e He)].
Defined.

Lemma queries_without_channel_skip_memory_witness :
  query_officer demo_cfg no_memory (post_raises (mk_exn TransportError (s "timed out")))
    (s "O1") (s "Status report") None
  = query_officer demo_cfg (fun _ _ => Ok (s "remembered")) 
      (post_raises (mk_exn TransportError (s "timed out"))) (s "O1") (s "Status report") None.
Proof.
  apply (queries_without_channel_skip_memory demo_cfg no_memory (fun _ _ => Ok (s "remembered"))
           (post_raises (mk_exn TransportError (s "timed out"))) (s "O1") (s "Status report")
           None).
  left. reflexivity.
Defined.

Lemma memory_command_frame_witness :
  exists d' rep,
    memory_command demo_cfg demo_db 1 (s "general") 7 30 (s "add") (Some (s "O1"))
      (Some (s "hold the line")) = Ok (d', rep)
    /\ (d' = demo_db \/ d' = fst (add_manual_note demo_db 30 1 (s "O1") (s "hold the line") 7)).
Proof.
  destruct (memory_command demo_cfg demo_db 1 (s "general") 7 30 (s "add") (Some (s "O1"))
              (Some (s "hold the line"))) as [[d' rep]|e] eqn:E;
    [|vm_compute in E; discriminate E].
  exists d', rep. split; [reflexivity|].
  destruct (memory_command_frame _ _ _ _ _ _ _ _ _ _ _ E)
    as [Hd | [_ [oid [text [Ho [Hn [_ [_ [_ [Hd _]]]]]]]]]]; [left; exact Hd|].
  right. injection Ho as <-. injection Hn as <-. exact Hd.
Defined.

Lemma mission_command_no_officers_witness :
  exists st',
    mission_command demo_cfg (post_raises (mk_exn TransportError (s "timed out"))) demo_store
      4 (s "ops") 9 7 (s "Ann") (s "Plan the launch") (Some (s "Nothing")) 30
    = Ok (st', CText (NO_OFFICERS (Some (s "Nothing"))))
    /\ responses (st_db st') = responses (st_db demo_store).
Proof.
  destruct (mission_command_no_officers demo_cfg
              (post_raises (mk_exn TransportError (s "timed out"))) demo_store
              4 (s "ops") 9 7 (s "Ann") (s "Plan the launch") (Some (s "Nothing")) 30)
    as [st' [Hq [_ [Hr _]]]].
  - vm_compute. reflexivity.
  - apply Nat.leb_le. vm_compute. reflexivity.
  - intros c Hc. injection Hc as <-. apply Nat.leb_le. vm_compute. reflexivity.
  - exists st'. auto.
Defined.

